(** * PSX market analyzer: the table normalizer and the table aggregator

    A shallow embedding of [day1.py]: [_norm], [clean_table_to_stock_schema]
    and [save_all_tables_single_sheet], with the pandas operations they use
    written out on a row-major table.

    - Strings are lists of code points; [str.upper] takes the upper-case
      table of the Python runtime as a parameter for the characters that
      are not ASCII.
    - [clean_table_to_stock_schema] is given twice: as a function from
      tables to tables, and as a program on a store of [DataFrame] objects,
      in which [df.columns = ...] and [out["SCRIP"] = ...] change an object
      in place. The second computes the first.
    - [save_all_tables_single_sheet] returns its result together with the
      calls it makes to the file system. Failures of those calls are not
      modelled. The conversion of values that [pd.concat] makes when it
      gives a column one dtype is a parameter.
    - The script is the list of the calls it makes, in order. The page, the
      tables read from it, the printing of a table and the answer of the
      model, which is sampled, are parameters. *)

From Stdlib Require Import NArith ZArith List String Ascii Bool Lia.
From Stdlib Require DecimalString.
From stdpp Require Import base option list gmap.

(** ** Python strings

    A Python [str] is a sequence of Unicode code points. *)

Module Py.

Definition str := list N.

(** A literal whose characters all lie below U+0100. *)
Definition lit (s : string) : str :=
  List.map N_of_ascii (list_ascii_of_string s).

(** [str.isspace] on one character: the code points that [str.strip()]
    removes. *)
Definition isspace (c : N) : bool :=
  ((9 <=? c) && (c <=? 13) || (28 <=? c) && (c <=? 32)
   || (c =? 133) || (c =? 160) || (c =? 5760)
   || (8192 <=? c) && (c <=? 8202)
   || (c =? 8232) || (c =? 8233) || (c =? 8239) || (c =? 8287)
   || (c =? 12288))%N.

(** [s.replace(old, new)] for one-character [old] and [new]. *)
Definition replace (old new : N) (s : str) : str :=
  List.map (fun c => if (c =? old)%N then new else c) s.

Fixpoint lstrip (s : str) : str :=
  match s with
  | [] => []
  | c :: s' => if isspace c then lstrip s' else s
  end.

Definition rstrip (s : str) : str := rev (lstrip (rev s)).

(** [s.strip()] *)
Definition strip (s : str) : str := rstrip (lstrip s).

(** [s.startswith(p)] *)
Fixpoint startswith (p s : str) : bool :=
  match p, s with
  | [], _ => true
  | a :: p', b :: s' => (a =? b)%N && startswith p' s'
  | _ :: _, [] => false
  end.

(** Upper-casing of one ASCII character. *)
Definition ascii_upper (c : N) : N :=
  if ((97 <=? c) && (c <=? 122))%N then (c - 32)%N else c.

Section Upper.
(** The full upper-case mapping of the Unicode database for the code
    points from U+0080 on: a table of the Python runtime. *)
Variable toupper_full : N -> list N.

Definition upper_char (c : N) : list N :=
  if (c <? 128)%N then [ascii_upper c] else toupper_full c.

(** [s.upper()]: every character is replaced by its upper-case mapping. *)
Definition upper (s : str) : str := flat_map upper_char s.
End Upper.

End Py.

(** ** Cells and tables *)

(** A scalar held in a table: a [str], or any other object (an integer, a
    float, [nan], [None]); the code looks at such an object through [str()]
    only, and it is carried as the text [str()] gives for it. *)
Inductive Cell :=
  | Text (s : Py.str)
  | Obj (repr : Py.str).

#[global] Instance Cell_eq_dec : EqDecision Cell.
Proof. solve_decision. Defined.

(** [str(x)] *)
Definition str (x : Cell) : Py.str :=
  match x with
  | Text s => s
  | Obj r => r
  end.

(** The missing value. *)
Definition NaN : Cell := Obj (Py.lit "nan").

(** A row: its index label and its cells, one per column. *)
Abbreviation Row := (Z * list Cell)%type.

(** A table with column labels of type [L], row-major. *)
Record frame (L : Type) := Frame {
  columns : list L;
  rows : list Row
}.
Arguments Frame {L} _ _.
Arguments columns {L} _.
Arguments rows {L} _.

(** A [pd.DataFrame]: its [columns] are an [Index] of scalars, or a
    [MultiIndex] of tuples of level values. *)
Inductive DataFrame :=
  | FlatDF (f : frame Cell)
  | MultiDF (f : frame (list Cell)).

(** [len(df)] *)
Definition len {L} (f : frame L) : nat := length (rows f).

(** [df.columns = labels] *)
Definition set_columns {L L'} (labels : list L') (f : frame L) : frame L' :=
  Frame labels (rows f).

(** [df.columns.get_level_values(-1)]: the innermost level of every label. *)
Definition get_level_values_last (tuples : list (list Cell)) : list Cell :=
  (fun t => List.last t NaN) <$> tuples.

(** Selection by a boolean mask, position by position. *)
Fixpoint keep {A} (mask : list bool) (l : list A) : list A :=
  match mask, l with
  | b :: mask', x :: l' => if b then x :: keep mask' l' else keep mask' l'
  | _, _ => []
  end.

(** [df.loc[:, mask]] *)
Definition loc_columns (mask : list bool) (f : frame Cell) : frame Cell :=
  Frame (keep mask (columns f))
        ((fun r : Row => (r.1, keep mask r.2)) <$> rows f).

(** [df.iloc[k:]] *)
Definition iloc_from {L} (k : nat) (f : frame L) : frame L :=
  Frame (columns f) (drop k (rows f)).

(** [df.reset_index(drop=True)]: the index becomes 0, 1, 2, ... *)
Definition reset_index {L} (f : frame L) : frame L :=
  Frame (columns f) (imap (fun i (r : Row) => (Z.of_nat i, r.2)) (rows f)).

(** [pd.Index(labels).duplicated(keep="first")] *)
Fixpoint duplicated_from (seen : list Cell) (labels : list Cell) : list bool :=
  match labels with
  | [] => []
  | c :: labels' =>
      bool_decide (c ∈ seen) :: duplicated_from (c :: seen) labels'
  end.

Definition duplicated (labels : list Cell) : list bool :=
  duplicated_from [] labels.

(** Position of the first column labelled [c]. *)
Fixpoint get_loc (c : Cell) (labels : list Cell) : nat :=
  match labels with
  | [] => 0
  | c' :: labels' => if decide (c' = c) then 0 else S (get_loc c labels')
  end.

(** The cell of a row under the column labelled [c]. *)
Definition cell_at (labels : list Cell) (c : Cell) (cells : list Cell) : Cell :=
  nth (get_loc c labels) cells NaN.

(** [df[labels]] on a table without duplicate labels: the named columns, in
    the order of [labels]. *)
Definition getitem (labels : list Cell) (f : frame Cell) : frame Cell :=
  Frame labels
        ((fun r : Row => (r.1, (fun c => cell_at (columns f) c r.2) <$> labels))
           <$> rows f).

(** ** The normalizer *)

Definition CANON : list Py.str :=
  Py.lit <$>
    ["SCRIP"; "LDCP"; "OPEN"; "HIGH"; "LOW"; "CURRENT"; "CHANGE"; "VOLUME"]%string.

Definition CANON_SET : gset Py.str := list_to_set CANON.

Definition SCRIP : Py.str := Py.lit "SCRIP".
Definition UNNAMED : Py.str := Py.lit "UNNAMED".

Section Pipeline.
Variable toupper_full : N -> list N.

Definition _norm (x : Cell) : Py.str :=
  Py.upper toupper_full (Py.strip (Py.replace 160 32 (str x))).

(** Lines 54-55. *)
Definition flatten_header (df : DataFrame) : frame Cell :=
  match df with
  | FlatDF f => f
  | MultiDF f => set_columns (get_level_values_last (columns f)) f
  end.

(** Lines 57 and 67. *)
Definition norm_columns (f : frame Cell) : frame Cell :=
  set_columns ((fun c => Text (_norm c)) <$> columns f) f.

(** Line 58. *)
Definition drop_unnamed (f : frame Cell) : frame Cell :=
  loc_columns
    ((fun c => negb (Py.startswith UNNAMED (str c))) <$> columns f) f.

(** Line 62. *)
Definition hits (row0 : list Py.str) : nat :=
  length (filter (fun v => v ∈ CANON_SET) row0).

(** Lines 60-65. *)
Definition promote_header (f : frame Cell) : frame Cell :=
  match rows f with
  | [] => f
  | r0 :: _ =>
      let row0 := _norm <$> r0.2 in
      if 4 <=? hits row0
      then reset_index (iloc_from 1 (set_columns (Text <$> row0) f))
      else f
  end.

(** Line 68. *)
Definition drop_duplicated (f : frame Cell) : frame Cell :=
  loc_columns (negb <$> duplicated (columns f)) f.

(** Lines 52-58: the table whose first row is inspected. *)
Definition header_stage (df : DataFrame) : frame Cell :=
  drop_unnamed (norm_columns (flatten_header df)).

(** Lines 52-68: the table on which the schema test is made. *)
Definition candidate (df : DataFrame) : frame Cell :=
  drop_duplicated (norm_columns (promote_header (header_stage df))).

(** Line 70. *)
Definition present (f : frame Cell) : list Py.str :=
  filter (fun c => Text c ∈ columns f) CANON.

(** Line 77: [out["SCRIP"] = out["SCRIP"].astype(str).str.strip()].
    [astype(str)] is [str()] on every value, as in pandas 1 and 2: a
    missing value becomes the text "nan". *)
Definition strip_scrip (out : frame Cell) : frame Cell :=
  let i := get_loc (Text SCRIP) (columns out) in
  Frame (columns out)
        ((fun r : Row => (r.1, alter (fun v => Text (Py.strip (str v))) i r.2))
           <$> rows out).

(** Line 78: [out[out["SCRIP"].str.upper() != "SCRIP"]] *)
Definition not_header_row (labels : list Cell) (r : Row) : Prop :=
  Py.upper toupper_full (str (cell_at labels (Text SCRIP) r.2)) <> SCRIP.

Definition drop_header_rows (out : frame Cell) : frame Cell :=
  Frame (columns out) (filter (not_header_row (columns out)) (rows out)).

(** Lines 76-78. *)
Definition scrip_cleanup (out : frame Cell) : frame Cell :=
  if bool_decide (Text SCRIP ∈ columns out)
  then drop_header_rows (strip_scrip out)
  else out.

(** Line 74. *)
Definition project (f : frame Cell) : frame Cell :=
  getitem (Text <$> present f) f.

(** Lines 70-80. *)
Definition select_schema (f : frame Cell) : option (frame Cell) :=
  if length (present f) <? 6 then None
  else Some (scrip_cleanup (project f)).

Definition clean_table_to_stock_schema (df : DataFrame) : option (frame Cell) :=
  select_schema (candidate df).

End Pipeline.

(** ** The aggregator *)

(** [pd.concat(frames, ignore_index=True)]: the columns are the union of the
    frames' columns in order of first appearance, every frame is aligned on
    them with [nan] for the columns it lacks, the rows are stacked and the
    index is renumbered. [nan] is the missing value of the columns of numbers,
    booleans and objects that [pd.read_html] gives. *)

(** The labels of the frames, each once, in order of first appearance. *)
Definition union_columns (frames : list (frame Cell)) : list Cell :=
  let all := flat_map columns frames in
  keep (negb <$> duplicated all) all.

Section Concat.
(** [pd.concat] gives every column of the result one dtype, the common dtype
    of its pieces, and converts the values to it: an integer of a column that
    meets floats, or that gets [nan] for a table without the column, becomes
    a float (10 becomes 10.0). The dtypes are not part of a table here: what
    the text of a value that is no [str] becomes, for the tables
    concatenated, the position of its table among them and its column, is a
    parameter. *)
Variable to_common_dtype : list (frame Cell) -> nat -> Cell -> Py.str -> Py.str.

(** What a value under column [c] of the [k]-th of the tables [all] is in
    the result: one table alone keeps its dtypes and its values, and a [str]
    stays what it is, since the common dtype of a column that holds one
    converts no value. *)
Definition unify (all : list (frame Cell)) (k : nat) (c v : Cell) : Cell :=
  match all with
  | [_] => v
  | _ =>
      match v with
      | Text s => Text s
      | Obj r => Obj (to_common_dtype all k c r)
      end
  end.

(** A row of the [k]-th table on the columns of the result. *)
Definition align (all : list (frame Cell)) (labels : list Cell) (k : nat)
    (f : frame Cell) (r : Row) : Row :=
  (r.1, (fun c => if bool_decide (c ∈ columns f)
                  then unify all k c (cell_at (columns f) c r.2)
                  else NaN) <$> labels).

(** The rows of the tables [frames], the first of which is the [k]-th of
    [all], one table after the other. *)
Fixpoint stack (all : list (frame Cell)) (labels : list Cell) (k : nat)
    (frames : list (frame Cell)) : list Row :=
  match frames with
  | [] => []
  | f :: frames' =>
      (align all labels k f <$> rows f) ++ stack all labels (S k) frames'
  end.

(** Line 104. *)
Definition concat (frames : list (frame Cell)) : frame Cell :=
  let labels := union_columns frames in
  reset_index (Frame labels (stack frames labels 0 frames)).
End Concat.

(** The calls made to the file system: [Path(dir).mkdir(parents=...,
    exist_ok=...)], and the workbook written at [Path(dir) / name] by
    [to_excel] through an [ExcelWriter]. *)
Inductive FsCall :=
  | Mkdir (dir : Py.str) (parents exist_ok : bool)
  | ToExcel (dir name : Py.str) (sheet_name : Py.str) (index : bool)
            (data : frame Cell).

Definition AllData : Py.str := Py.lit "AllData".

Section Aggregator.
Variable toupper_full : N -> list N.
Variable to_common_dtype : list (frame Cell) -> nat -> Cell -> Py.str -> Py.str.

(** Lines 91-99: the accepted tables and the number of rejected ones. *)
Definition clean_all (tables : list DataFrame) : list (frame Cell) * nat :=
  foldl (fun '(cleaned, skipped) t =>
           match clean_table_to_stock_schema toupper_full t with
           | None => (cleaned, S skipped)
           | Some fixed => (cleaned ++ [fixed], skipped)
           end)
        ([], 0) tables.

(** The result and the file-system calls made, in order. *)
Definition save_all_tables_single_sheet (tables : list DataFrame)
    (out_dir excel_name : Py.str) : option (frame Cell) * list FsCall :=
  match tables with
  | [] => (None, [])
  | _ :: _ =>
      match (clean_all tables).1 with
      | [] => (None, [])
      | cleaned =>
          let combined_df := concat to_common_dtype cleaned in
          (Some combined_df,
           [Mkdir out_dir true true;
            ToExcel out_dir excel_name AllData false combined_df])
      end
  end.
End Aggregator.

(** ** The normalizer on a store of objects

    [clean_table_to_stock_schema] receives a reference to a [DataFrame]
    object; assignments to [df.columns] and [out["SCRIP"]] change an object
    in place, all other operations build a new object. *)

Abbreviation loc := positive.
Abbreviation heap := (gmap positive DataFrame).

Definition M (A : Type) : Type := heap -> option (A * heap).

#[global] Instance M_ret : MRet M := fun A a h => Some (a, h).
#[global] Instance M_bind : MBind M := fun A B k m h =>
  match m h with
  | Some (a, h') => k a h'
  | None => None
  end.

(** A new object. *)
Definition new (v : DataFrame) : M loc :=
  fun h => let l := fresh (dom h) in Some (l, <[l:=v]> h).

(** The object behind a reference. *)
Definition deref (l : loc) : M DataFrame :=
  fun h => match h !! l with Some v => Some (v, h) | None => None end.

(** The same, for an object whose [columns] are a flat [Index]. *)
Definition deref_flat (l : loc) : M (frame Cell) :=
  fun h => match h !! l with Some (FlatDF f) => Some (f, h) | _ => None end.

(** An object changed in place. *)
Definition assign (l : loc) (v : DataFrame) : M unit :=
  fun h => match h !! l with Some _ => Some (tt, <[l:=v]> h) | None => None end.

(** The computation [m] started in [h] returns, with a result and a final
    store that satisfy [Q]. *)
Definition wp {A} (m : M A) (h : heap) (Q : A -> heap -> Prop) : Prop :=
  exists a h', m h = Some (a, h') /\ Q a h'.

(** Every object of [h0] is unchanged in [h], and [l] is an object created
    since, which holds the table [f]. *)
Definition working_copy (h0 h : heap) (l : loc) (f : frame Cell) : Prop :=
  h0 ⊆ h /\ h0 !! l = None /\ h !! l = Some (FlatDF f).

Section Store.
Variable toupper_full : N -> list N.

Definition clean_table_to_stock_schema_st (df : loc) : M (option loc) :=
  t ← deref df; df ← new t;                                   (* 52 *)
  t ← deref df;
  match t with                                                (* 54-55 *)
  | MultiDF f =>
      assign df (FlatDF (set_columns (get_level_values_last (columns f)) f))
  | FlatDF _ => mret tt
  end;;
  f ← deref_flat df;
  assign df (FlatDF (norm_columns toupper_full f));;          (* 57 *)
  f ← deref_flat df;
  df ← new (FlatDF (drop_unnamed f));                         (* 58 *)
  f ← deref_flat df;
  df ← match rows f with                                      (* 60-65 *)
       | [] => mret df
       | r0 :: _ =>
           let row0 := _norm toupper_full <$> r0.2 in
           if 4 <=? hits row0
           then assign df (FlatDF (set_columns (Text <$> row0) f));;
                f ← deref_flat df;
                tail ← new (FlatDF (iloc_from 1 f));
                f ← deref_flat tail;
                new (FlatDF (reset_index f))
           else mret df
       end;
  f ← deref_flat df;
  assign df (FlatDF (norm_columns toupper_full f));;          (* 67 *)
  f ← deref_flat df;
  df ← new (FlatDF (drop_duplicated f));                      (* 68 *)
  f ← deref_flat df;
  let present := present f in                                 (* 70 *)
  if length present <? 6 then mret None                       (* 71-72 *)
  else
    sel ← new (FlatDF (getitem (Text <$> present) f));        (* 74 *)
    t ← deref sel; out ← new t;
    f ← deref_flat out;
    out ← (if bool_decide (Text SCRIP ∈ columns f)            (* 76 *)
           then assign out (FlatDF (strip_scrip f));;         (* 77 *)
                f ← deref_flat out;
                new (FlatDF (drop_header_rows toupper_full f)) (* 78 *)
           else mret out);
    mret (Some out).
End Store.

(** ** Sample data *)

(** The upper-case table of CPython 3.11 (Unicode 14.0.0): the code points
    from U+0080 on that [str.upper] changes, each with what it becomes. *)
Definition toupper_table : list (N * list N) :=
  [(181, [924]); (223, [83; 83]); (224, [192]); (225, [193]); (226, [194]);
   (227, [195]); (228, [196]); (229, [197]); (230, [198]); (231, [199]);
   (232, [200]); (233, [201]); (234, [202]); (235, [203]); (236, [204]);
   (237, [205]); (238, [206]); (239, [207]); (240, [208]); (241, [209]);
   (242, [210]); (243, [211]); (244, [212]); (245, [213]); (246, [214]);
   (248, [216]); (249, [217]); (250, [218]); (251, [219]); (252, [220]);
   (253, [221]); (254, [222]); (255, [376]); (257, [256]); (259, [258]);
   (261, [260]); (263, [262]); (265, [264]); (267, [266]); (269, [268]);
   (271, [270]); (273, [272]); (275, [274]); (277, [276]); (279, [278]);
   (281, [280]); (283, [282]); (285, [284]); (287, [286]); (289, [288]);
   (291, [290]); (293, [292]); (295, [294]); (297, [296]); (299, [298]);
   (301, [300]); (303, [302]); (305, [73]); (307, [306]); (309, [308]);
   (311, [310]); (314, [313]); (316, [315]); (318, [317]); (320, [319]);
   (322, [321]); (324, [323]); (326, [325]); (328, [327]); (329, [700; 78]);
   (331, [330]); (333, [332]); (335, [334]); (337, [336]); (339, [338]);
   (341, [340]); (343, [342]); (345, [344]); (347, [346]); (349, [348]);
   (351, [350]); (353, [352]); (355, [354]); (357, [356]); (359, [358]);
   (361, [360]); (363, [362]); (365, [364]); (367, [366]); (369, [368]);
   (371, [370]); (373, [372]); (375, [374]); (378, [377]); (380, [379]);
   (382, [381]); (383, [83]); (384, [579]); (387, [386]); (389, [388]);
   (392, [391]); (396, [395]); (402, [401]); (405, [502]); (409, [408]);
   (410, [573]); (414, [544]); (417, [416]); (419, [418]); (421, [420]);
   (424, [423]); (429, [428]); (432, [431]); (436, [435]); (438, [437]);
   (441, [440]); (445, [444]); (447, [503]); (453, [452]); (454, [452]);
   (456, [455]); (457, [455]); (459, [458]); (460, [458]); (462, [461]);
   (464, [463]); (466, [465]); (468, [467]); (470, [469]); (472, [471]);
   (474, [473]); (476, [475]); (477, [398]); (479, [478]); (481, [480]);
   (483, [482]); (485, [484]); (487, [486]); (489, [488]); (491, [490]);
   (493, [492]); (495, [494]); (496, [74; 780]); (498, [497]); (499, [497]);
   (501, [500]); (505, [504]); (507, [506]); (509, [508]); (511, [510]);
   (513, [512]); (515, [514]); (517, [516]); (519, [518]); (521, [520]);
   (523, [522]); (525, [524]); (527, [526]); (529, [528]); (531, [530]);
   (533, [532]); (535, [534]); (537, [536]); (539, [538]); (541, [540]);
   (543, [542]); (547, [546]); (549, [548]); (551, [550]); (553, [552]);
   (555, [554]); (557, [556]); (559, [558]); (561, [560]); (563, [562]);
   (572, [571]); (575, [11390]); (576, [11391]); (578, [577]); (583, [582]);
   (585, [584]); (587, [586]); (589, [588]); (591, [590]); (592, [11375]);
   (593, [11373]); (594, [11376]); (595, [385]); (596, [390]); (598, [393]);
   (599, [394]); (601, [399]); (603, [400]); (604, [42923]); (608, [403]);
   (609, [42924]); (611, [404]); (613, [42893]); (614, [42922]); (616, [407]);
   (617, [406]); (618, [42926]); (619, [11362]); (620, [42925]); (623, [412]);
   (625, [11374]); (626, [413]); (629, [415]); (637, [11364]); (640, [422]);
   (642, [42949]); (643, [425]); (647, [42929]); (648, [430]); (649, [580]);
   (650, [433]); (651, [434]); (652, [581]); (658, [439]); (669, [42930]);
   (670, [42928]); (837, [921]); (881, [880]); (883, [882]); (887, [886]);
   (891, [1021]); (892, [1022]); (893, [1023]); (912, [921; 776; 769]);
   (940, [902]); (941, [904]); (942, [905]); (943, [906]);
   (944, [933; 776; 769]); (945, [913]); (946, [914]); (947, [915]);
   (948, [916]); (949, [917]); (950, [918]); (951, [919]); (952, [920]);
   (953, [921]); (954, [922]); (955, [923]); (956, [924]); (957, [925]);
   (958, [926]); (959, [927]); (960, [928]); (961, [929]); (962, [931]);
   (963, [931]); (964, [932]); (965, [933]); (966, [934]); (967, [935]);
   (968, [936]); (969, [937]); (970, [938]); (971, [939]); (972, [908]);
   (973, [910]); (974, [911]); (976, [914]); (977, [920]); (981, [934]);
   (982, [928]); (983, [975]); (985, [984]); (987, [986]); (989, [988]);
   (991, [990]); (993, [992]); (995, [994]); (997, [996]); (999, [998]);
   (1001, [1000]); (1003, [1002]); (1005, [1004]); (1007, [1006]);
   (1008, [922]); (1009, [929]); (1010, [1017]); (1011, [895]); (1013, [917]);
   (1016, [1015]); (1019, [1018]); (1072, [1040]); (1073, [1041]);
   (1074, [1042]); (1075, [1043]); (1076, [1044]); (1077, [1045]);
   (1078, [1046]); (1079, [1047]); (1080, [1048]); (1081, [1049]);
   (1082, [1050]); (1083, [1051]); (1084, [1052]); (1085, [1053]);
   (1086, [1054]); (1087, [1055]); (1088, [1056]); (1089, [1057]);
   (1090, [1058]); (1091, [1059]); (1092, [1060]); (1093, [1061]);
   (1094, [1062]); (1095, [1063]); (1096, [1064]); (1097, [1065]);
   (1098, [1066]); (1099, [1067]); (1100, [1068]); (1101, [1069]);
   (1102, [1070]); (1103, [1071]); (1104, [1024]); (1105, [1025]);
   (1106, [1026]); (1107, [1027]); (1108, [1028]); (1109, [1029]);
   (1110, [1030]); (1111, [1031]); (1112, [1032]); (1113, [1033]);
   (1114, [1034]); (1115, [1035]); (1116, [1036]); (1117, [1037]);
   (1118, [1038]); (1119, [1039]); (1121, [1120]); (1123, [1122]);
   (1125, [1124]); (1127, [1126]); (1129, [1128]); (1131, [1130]);
   (1133, [1132]); (1135, [1134]); (1137, [1136]); (1139, [1138]);
   (1141, [1140]); (1143, [1142]); (1145, [1144]); (1147, [1146]);
   (1149, [1148]); (1151, [1150]); (1153, [1152]); (1163, [1162]);
   (1165, [1164]); (1167, [1166]); (1169, [1168]); (1171, [1170]);
   (1173, [1172]); (1175, [1174]); (1177, [1176]); (1179, [1178]);
   (1181, [1180]); (1183, [1182]); (1185, [1184]); (1187, [1186]);
   (1189, [1188]); (1191, [1190]); (1193, [1192]); (1195, [1194]);
   (1197, [1196]); (1199, [1198]); (1201, [1200]); (1203, [1202]);
   (1205, [1204]); (1207, [1206]); (1209, [1208]); (1211, [1210]);
   (1213, [1212]); (1215, [1214]); (1218, [1217]); (1220, [1219]);
   (1222, [1221]); (1224, [1223]); (1226, [1225]); (1228, [1227]);
   (1230, [1229]); (1231, [1216]); (1233, [1232]); (1235, [1234]);
   (1237, [1236]); (1239, [1238]); (1241, [1240]); (1243, [1242]);
   (1245, [1244]); (1247, [1246]); (1249, [1248]); (1251, [1250]);
   (1253, [1252]); (1255, [1254]); (1257, [1256]); (1259, [1258]);
   (1261, [1260]); (1263, [1262]); (1265, [1264]); (1267, [1266]);
   (1269, [1268]); (1271, [1270]); (1273, [1272]); (1275, [1274]);
   (1277, [1276]); (1279, [1278]); (1281, [1280]); (1283, [1282]);
   (1285, [1284]); (1287, [1286]); (1289, [1288]); (1291, [1290]);
   (1293, [1292]); (1295, [1294]); (1297, [1296]); (1299, [1298]);
   (1301, [1300]); (1303, [1302]); (1305, [1304]); (1307, [1306]);
   (1309, [1308]); (1311, [1310]); (1313, [1312]); (1315, [1314]);
   (1317, [1316]); (1319, [1318]); (1321, [1320]); (1323, [1322]);
   (1325, [1324]); (1327, [1326]); (1377, [1329]); (1378, [1330]);
   (1379, [1331]); (1380, [1332]); (1381, [1333]); (1382, [1334]);
   (1383, [1335]); (1384, [1336]); (1385, [1337]); (1386, [1338]);
   (1387, [1339]); (1388, [1340]); (1389, [1341]); (1390, [1342]);
   (1391, [1343]); (1392, [1344]); (1393, [1345]); (1394, [1346]);
   (1395, [1347]); (1396, [1348]); (1397, [1349]); (1398, [1350]);
   (1399, [1351]); (1400, [1352]); (1401, [1353]); (1402, [1354]);
   (1403, [1355]); (1404, [1356]); (1405, [1357]); (1406, [1358]);
   (1407, [1359]); (1408, [1360]); (1409, [1361]); (1410, [1362]);
   (1411, [1363]); (1412, [1364]); (1413, [1365]); (1414, [1366]);
   (1415, [1333; 1362]); (4304, [7312]); (4305, [7313]); (4306, [7314]);
   (4307, [7315]); (4308, [7316]); (4309, [7317]); (4310, [7318]);
   (4311, [7319]); (4312, [7320]); (4313, [7321]); (4314, [7322]);
   (4315, [7323]); (4316, [7324]); (4317, [7325]); (4318, [7326]);
   (4319, [7327]); (4320, [7328]); (4321, [7329]); (4322, [7330]);
   (4323, [7331]); (4324, [7332]); (4325, [7333]); (4326, [7334]);
   (4327, [7335]); (4328, [7336]); (4329, [7337]); (4330, [7338]);
   (4331, [7339]); (4332, [7340]); (4333, [7341]); (4334, [7342]);
   (4335, [7343]); (4336, [7344]); (4337, [7345]); (4338, [7346]);
   (4339, [7347]); (4340, [7348]); (4341, [7349]); (4342, [7350]);
   (4343, [7351]); (4344, [7352]); (4345, [7353]); (4346, [7354]);
   (4349, [7357]); (4350, [7358]); (4351, [7359]); (5112, [5104]);
   (5113, [5105]); (5114, [5106]); (5115, [5107]); (5116, [5108]);
   (5117, [5109]); (7296, [1042]); (7297, [1044]); (7298, [1054]);
   (7299, [1057]); (7300, [1058]); (7301, [1058]); (7302, [1066]);
   (7303, [1122]); (7304, [42570]); (7545, [42877]); (7549, [11363]);
   (7566, [42950]); (7681, [7680]); (7683, [7682]); (7685, [7684]);
   (7687, [7686]); (7689, [7688]); (7691, [7690]); (7693, [7692]);
   (7695, [7694]); (7697, [7696]); (7699, [7698]); (7701, [7700]);
   (7703, [7702]); (7705, [7704]); (7707, [7706]); (7709, [7708]);
   (7711, [7710]); (7713, [7712]); (7715, [7714]); (7717, [7716]);
   (7719, [7718]); (7721, [7720]); (7723, [7722]); (7725, [7724]);
   (7727, [7726]); (7729, [7728]); (7731, [7730]); (7733, [7732]);
   (7735, [7734]); (7737, [7736]); (7739, [7738]); (7741, [7740]);
   (7743, [7742]); (7745, [7744]); (7747, [7746]); (7749, [7748]);
   (7751, [7750]); (7753, [7752]); (7755, [7754]); (7757, [7756]);
   (7759, [7758]); (7761, [7760]); (7763, [7762]); (7765, [7764]);
   (7767, [7766]); (7769, [7768]); (7771, [7770]); (7773, [7772]);
   (7775, [7774]); (7777, [7776]); (7779, [7778]); (7781, [7780]);
   (7783, [7782]); (7785, [7784]); (7787, [7786]); (7789, [7788]);
   (7791, [7790]); (7793, [7792]); (7795, [7794]); (7797, [7796]);
   (7799, [7798]); (7801, [7800]); (7803, [7802]); (7805, [7804]);
   (7807, [7806]); (7809, [7808]); (7811, [7810]); (7813, [7812]);
   (7815, [7814]); (7817, [7816]); (7819, [7818]); (7821, [7820]);
   (7823, [7822]); (7825, [7824]); (7827, [7826]); (7829, [7828]);
   (7830, [72; 817]); (7831, [84; 776]); (7832, [87; 778]); (7833, [89; 778]);
   (7834, [65; 702]); (7835, [7776]); (7841, [7840]); (7843, [7842]);
   (7845, [7844]); (7847, [7846]); (7849, [7848]); (7851, [7850]);
   (7853, [7852]); (7855, [7854]); (7857, [7856]); (7859, [7858]);
   (7861, [7860]); (7863, [7862]); (7865, [7864]); (7867, [7866]);
   (7869, [7868]); (7871, [7870]); (7873, [7872]); (7875, [7874]);
   (7877, [7876]); (7879, [7878]); (7881, [7880]); (7883, [7882]);
   (7885, [7884]); (7887, [7886]); (7889, [7888]); (7891, [7890]);
   (7893, [7892]); (7895, [7894]); (7897, [7896]); (7899, [7898]);
   (7901, [7900]); (7903, [7902]); (7905, [7904]); (7907, [7906]);
   (7909, [7908]); (7911, [7910]); (7913, [7912]); (7915, [7914]);
   (7917, [7916]); (7919, [7918]); (7921, [7920]); (7923, [7922]);
   (7925, [7924]); (7927, [7926]); (7929, [7928]); (7931, [7930]);
   (7933, [7932]); (7935, [7934]); (7936, [7944]); (7937, [7945]);
   (7938, [7946]); (7939, [7947]); (7940, [7948]); (7941, [7949]);
   (7942, [7950]); (7943, [7951]); (7952, [7960]); (7953, [7961]);
   (7954, [7962]); (7955, [7963]); (7956, [7964]); (7957, [7965]);
   (7968, [7976]); (7969, [7977]); (7970, [7978]); (7971, [7979]);
   (7972, [7980]); (7973, [7981]); (7974, [7982]); (7975, [7983]);
   (7984, [7992]); (7985, [7993]); (7986, [7994]); (7987, [7995]);
   (7988, [7996]); (7989, [7997]); (7990, [7998]); (7991, [7999]);
   (8000, [8008]); (8001, [8009]); (8002, [8010]); (8003, [8011]);
   (8004, [8012]); (8005, [8013]); (8016, [933; 787]); (8017, [8025]);
   (8018, [933; 787; 768]); (8019, [8027]); (8020, [933; 787; 769]);
   (8021, [8029]); (8022, [933; 787; 834]); (8023, [8031]); (8032, [8040]);
   (8033, [8041]); (8034, [8042]); (8035, [8043]); (8036, [8044]);
   (8037, [8045]); (8038, [8046]); (8039, [8047]); (8048, [8122]);
   (8049, [8123]); (8050, [8136]); (8051, [8137]); (8052, [8138]);
   (8053, [8139]); (8054, [8154]); (8055, [8155]); (8056, [8184]);
   (8057, [8185]); (8058, [8170]); (8059, [8171]); (8060, [8186]);
   (8061, [8187]); (8064, [7944; 921]); (8065, [7945; 921]);
   (8066, [7946; 921]); (8067, [7947; 921]); (8068, [7948; 921]);
   (8069, [7949; 921]); (8070, [7950; 921]); (8071, [7951; 921]);
   (8072, [7944; 921]); (8073, [7945; 921]); (8074, [7946; 921]);
   (8075, [7947; 921]); (8076, [7948; 921]); (8077, [7949; 921]);
   (8078, [7950; 921]); (8079, [7951; 921]); (8080, [7976; 921]);
   (8081, [7977; 921]); (8082, [7978; 921]); (8083, [7979; 921]);
   (8084, [7980; 921]); (8085, [7981; 921]); (8086, [7982; 921]);
   (8087, [7983; 921]); (8088, [7976; 921]); (8089, [7977; 921]);
   (8090, [7978; 921]); (8091, [7979; 921]); (8092, [7980; 921]);
   (8093, [7981; 921]); (8094, [7982; 921]); (8095, [7983; 921]);
   (8096, [8040; 921]); (8097, [8041; 921]); (8098, [8042; 921]);
   (8099, [8043; 921]); (8100, [8044; 921]); (8101, [8045; 921]);
   (8102, [8046; 921]); (8103, [8047; 921]); (8104, [8040; 921]);
   (8105, [8041; 921]); (8106, [8042; 921]); (8107, [8043; 921]);
   (8108, [8044; 921]); (8109, [8045; 921]); (8110, [8046; 921]);
   (8111, [8047; 921]); (8112, [8120]); (8113, [8121]); (8114, [8122; 921]);
   (8115, [913; 921]); (8116, [902; 921]); (8118, [913; 834]);
   (8119, [913; 834; 921]); (8124, [913; 921]); (8126, [921]);
   (8130, [8138; 921]); (8131, [919; 921]); (8132, [905; 921]);
   (8134, [919; 834]); (8135, [919; 834; 921]); (8140, [919; 921]);
   (8144, [8152]); (8145, [8153]); (8146, [921; 776; 768]);
   (8147, [921; 776; 769]); (8150, [921; 834]); (8151, [921; 776; 834]);
   (8160, [8168]); (8161, [8169]); (8162, [933; 776; 768]);
   (8163, [933; 776; 769]); (8164, [929; 787]); (8165, [8172]);
   (8166, [933; 834]); (8167, [933; 776; 834]); (8178, [8186; 921]);
   (8179, [937; 921]); (8180, [911; 921]); (8182, [937; 834]);
   (8183, [937; 834; 921]); (8188, [937; 921]); (8526, [8498]);
   (8560, [8544]); (8561, [8545]); (8562, [8546]); (8563, [8547]);
   (8564, [8548]); (8565, [8549]); (8566, [8550]); (8567, [8551]);
   (8568, [8552]); (8569, [8553]); (8570, [8554]); (8571, [8555]);
   (8572, [8556]); (8573, [8557]); (8574, [8558]); (8575, [8559]);
   (8580, [8579]); (9424, [9398]); (9425, [9399]); (9426, [9400]);
   (9427, [9401]); (9428, [9402]); (9429, [9403]); (9430, [9404]);
   (9431, [9405]); (9432, [9406]); (9433, [9407]); (9434, [9408]);
   (9435, [9409]); (9436, [9410]); (9437, [9411]); (9438, [9412]);
   (9439, [9413]); (9440, [9414]); (9441, [9415]); (9442, [9416]);
   (9443, [9417]); (9444, [9418]); (9445, [9419]); (9446, [9420]);
   (9447, [9421]); (9448, [9422]); (9449, [9423]); (11312, [11264]);
   (11313, [11265]); (11314, [11266]); (11315, [11267]); (11316, [11268]);
   (11317, [11269]); (11318, [11270]); (11319, [11271]); (11320, [11272]);
   (11321, [11273]); (11322, [11274]); (11323, [11275]); (11324, [11276]);
   (11325, [11277]); (11326, [11278]); (11327, [11279]); (11328, [11280]);
   (11329, [11281]); (11330, [11282]); (11331, [11283]); (11332, [11284]);
   (11333, [11285]); (11334, [11286]); (11335, [11287]); (11336, [11288]);
   (11337, [11289]); (11338, [11290]); (11339, [11291]); (11340, [11292]);
   (11341, [11293]); (11342, [11294]); (11343, [11295]); (11344, [11296]);
   (11345, [11297]); (11346, [11298]); (11347, [11299]); (11348, [11300]);
   (11349, [11301]); (11350, [11302]); (11351, [11303]); (11352, [11304]);
   (11353, [11305]); (11354, [11306]); (11355, [11307]); (11356, [11308]);
   (11357, [11309]); (11358, [11310]); (11359, [11311]); (11361, [11360]);
   (11365, [570]); (11366, [574]); (11368, [11367]); (11370, [11369]);
   (11372, [11371]); (11379, [11378]); (11382, [11381]); (11393, [11392]);
   (11395, [11394]); (11397, [11396]); (11399, [11398]); (11401, [11400]);
   (11403, [11402]); (11405, [11404]); (11407, [11406]); (11409, [11408]);
   (11411, [11410]); (11413, [11412]); (11415, [11414]); (11417, [11416]);
   (11419, [11418]); (11421, [11420]); (11423, [11422]); (11425, [11424]);
   (11427, [11426]); (11429, [11428]); (11431, [11430]); (11433, [11432]);
   (11435, [11434]); (11437, [11436]); (11439, [11438]); (11441, [11440]);
   (11443, [11442]); (11445, [11444]); (11447, [11446]); (11449, [11448]);
   (11451, [11450]); (11453, [11452]); (11455, [11454]); (11457, [11456]);
   (11459, [11458]); (11461, [11460]); (11463, [11462]); (11465, [11464]);
   (11467, [11466]); (11469, [11468]); (11471, [11470]); (11473, [11472]);
   (11475, [11474]); (11477, [11476]); (11479, [11478]); (11481, [11480]);
   (11483, [11482]); (11485, [11484]); (11487, [11486]); (11489, [11488]);
   (11491, [11490]); (11500, [11499]); (11502, [11501]); (11507, [11506]);
   (11520, [4256]); (11521, [4257]); (11522, [4258]); (11523, [4259]);
   (11524, [4260]); (11525, [4261]); (11526, [4262]); (11527, [4263]);
   (11528, [4264]); (11529, [4265]); (11530, [4266]); (11531, [4267]);
   (11532, [4268]); (11533, [4269]); (11534, [4270]); (11535, [4271]);
   (11536, [4272]); (11537, [4273]); (11538, [4274]); (11539, [4275]);
   (11540, [4276]); (11541, [4277]); (11542, [4278]); (11543, [4279]);
   (11544, [4280]); (11545, [4281]); (11546, [4282]); (11547, [4283]);
   (11548, [4284]); (11549, [4285]); (11550, [4286]); (11551, [4287]);
   (11552, [4288]); (11553, [4289]); (11554, [4290]); (11555, [4291]);
   (11556, [4292]); (11557, [4293]); (11559, [4295]); (11565, [4301]);
   (42561, [42560]); (42563, [42562]); (42565, [42564]); (42567, [42566]);
   (42569, [42568]); (42571, [42570]); (42573, [42572]); (42575, [42574]);
   (42577, [42576]); (42579, [42578]); (42581, [42580]); (42583, [42582]);
   (42585, [42584]); (42587, [42586]); (42589, [42588]); (42591, [42590]);
   (42593, [42592]); (42595, [42594]); (42597, [42596]); (42599, [42598]);
   (42601, [42600]); (42603, [42602]); (42605, [42604]); (42625, [42624]);
   (42627, [42626]); (42629, [42628]); (42631, [42630]); (42633, [42632]);
   (42635, [42634]); (42637, [42636]); (42639, [42638]); (42641, [42640]);
   (42643, [42642]); (42645, [42644]); (42647, [42646]); (42649, [42648]);
   (42651, [42650]); (42787, [42786]); (42789, [42788]); (42791, [42790]);
   (42793, [42792]); (42795, [42794]); (42797, [42796]); (42799, [42798]);
   (42803, [42802]); (42805, [42804]); (42807, [42806]); (42809, [42808]);
   (42811, [42810]); (42813, [42812]); (42815, [42814]); (42817, [42816]);
   (42819, [42818]); (42821, [42820]); (42823, [42822]); (42825, [42824]);
   (42827, [42826]); (42829, [42828]); (42831, [42830]); (42833, [42832]);
   (42835, [42834]); (42837, [42836]); (42839, [42838]); (42841, [42840]);
   (42843, [42842]); (42845, [42844]); (42847, [42846]); (42849, [42848]);
   (42851, [42850]); (42853, [42852]); (42855, [42854]); (42857, [42856]);
   (42859, [42858]); (42861, [42860]); (42863, [42862]); (42874, [42873]);
   (42876, [42875]); (42879, [42878]); (42881, [42880]); (42883, [42882]);
   (42885, [42884]); (42887, [42886]); (42892, [42891]); (42897, [42896]);
   (42899, [42898]); (42900, [42948]); (42903, [42902]); (42905, [42904]);
   (42907, [42906]); (42909, [42908]); (42911, [42910]); (42913, [42912]);
   (42915, [42914]); (42917, [42916]); (42919, [42918]); (42921, [42920]);
   (42933, [42932]); (42935, [42934]); (42937, [42936]); (42939, [42938]);
   (42941, [42940]); (42943, [42942]); (42945, [42944]); (42947, [42946]);
   (42952, [42951]); (42954, [42953]); (42961, [42960]); (42967, [42966]);
   (42969, [42968]); (42998, [42997]); (43859, [42931]); (43888, [5024]);
   (43889, [5025]); (43890, [5026]); (43891, [5027]); (43892, [5028]);
   (43893, [5029]); (43894, [5030]); (43895, [5031]); (43896, [5032]);
   (43897, [5033]); (43898, [5034]); (43899, [5035]); (43900, [5036]);
   (43901, [5037]); (43902, [5038]); (43903, [5039]); (43904, [5040]);
   (43905, [5041]); (43906, [5042]); (43907, [5043]); (43908, [5044]);
   (43909, [5045]); (43910, [5046]); (43911, [5047]); (43912, [5048]);
   (43913, [5049]); (43914, [5050]); (43915, [5051]); (43916, [5052]);
   (43917, [5053]); (43918, [5054]); (43919, [5055]); (43920, [5056]);
   (43921, [5057]); (43922, [5058]); (43923, [5059]); (43924, [5060]);
   (43925, [5061]); (43926, [5062]); (43927, [5063]); (43928, [5064]);
   (43929, [5065]); (43930, [5066]); (43931, [5067]); (43932, [5068]);
   (43933, [5069]); (43934, [5070]); (43935, [5071]); (43936, [5072]);
   (43937, [5073]); (43938, [5074]); (43939, [5075]); (43940, [5076]);
   (43941, [5077]); (43942, [5078]); (43943, [5079]); (43944, [5080]);
   (43945, [5081]); (43946, [5082]); (43947, [5083]); (43948, [5084]);
   (43949, [5085]); (43950, [5086]); (43951, [5087]); (43952, [5088]);
   (43953, [5089]); (43954, [5090]); (43955, [5091]); (43956, [5092]);
   (43957, [5093]); (43958, [5094]); (43959, [5095]); (43960, [5096]);
   (43961, [5097]); (43962, [5098]); (43963, [5099]); (43964, [5100]);
   (43965, [5101]); (43966, [5102]); (43967, [5103]); (64256, [70; 70]);
   (64257, [70; 73]); (64258, [70; 76]); (64259, [70; 70; 73]);
   (64260, [70; 70; 76]); (64261, [83; 84]); (64262, [83; 84]);
   (64275, [1348; 1350]); (64276, [1348; 1333]); (64277, [1348; 1339]);
   (64278, [1358; 1350]); (64279, [1348; 1341]); (65345, [65313]);
   (65346, [65314]); (65347, [65315]); (65348, [65316]); (65349, [65317]);
   (65350, [65318]); (65351, [65319]); (65352, [65320]); (65353, [65321]);
   (65354, [65322]); (65355, [65323]); (65356, [65324]); (65357, [65325]);
   (65358, [65326]); (65359, [65327]); (65360, [65328]); (65361, [65329]);
   (65362, [65330]); (65363, [65331]); (65364, [65332]); (65365, [65333]);
   (65366, [65334]); (65367, [65335]); (65368, [65336]); (65369, [65337]);
   (65370, [65338]); (66600, [66560]); (66601, [66561]); (66602, [66562]);
   (66603, [66563]); (66604, [66564]); (66605, [66565]); (66606, [66566]);
   (66607, [66567]); (66608, [66568]); (66609, [66569]); (66610, [66570]);
   (66611, [66571]); (66612, [66572]); (66613, [66573]); (66614, [66574]);
   (66615, [66575]); (66616, [66576]); (66617, [66577]); (66618, [66578]);
   (66619, [66579]); (66620, [66580]); (66621, [66581]); (66622, [66582]);
   (66623, [66583]); (66624, [66584]); (66625, [66585]); (66626, [66586]);
   (66627, [66587]); (66628, [66588]); (66629, [66589]); (66630, [66590]);
   (66631, [66591]); (66632, [66592]); (66633, [66593]); (66634, [66594]);
   (66635, [66595]); (66636, [66596]); (66637, [66597]); (66638, [66598]);
   (66639, [66599]); (66776, [66736]); (66777, [66737]); (66778, [66738]);
   (66779, [66739]); (66780, [66740]); (66781, [66741]); (66782, [66742]);
   (66783, [66743]); (66784, [66744]); (66785, [66745]); (66786, [66746]);
   (66787, [66747]); (66788, [66748]); (66789, [66749]); (66790, [66750]);
   (66791, [66751]); (66792, [66752]); (66793, [66753]); (66794, [66754]);
   (66795, [66755]); (66796, [66756]); (66797, [66757]); (66798, [66758]);
   (66799, [66759]); (66800, [66760]); (66801, [66761]); (66802, [66762]);
   (66803, [66763]); (66804, [66764]); (66805, [66765]); (66806, [66766]);
   (66807, [66767]); (66808, [66768]); (66809, [66769]); (66810, [66770]);
   (66811, [66771]); (66967, [66928]); (66968, [66929]); (66969, [66930]);
   (66970, [66931]); (66971, [66932]); (66972, [66933]); (66973, [66934]);
   (66974, [66935]); (66975, [66936]); (66976, [66937]); (66977, [66938]);
   (66979, [66940]); (66980, [66941]); (66981, [66942]); (66982, [66943]);
   (66983, [66944]); (66984, [66945]); (66985, [66946]); (66986, [66947]);
   (66987, [66948]); (66988, [66949]); (66989, [66950]); (66990, [66951]);
   (66991, [66952]); (66992, [66953]); (66993, [66954]); (66995, [66956]);
   (66996, [66957]); (66997, [66958]); (66998, [66959]); (66999, [66960]);
   (67000, [66961]); (67001, [66962]); (67003, [66964]); (67004, [66965]);
   (68800, [68736]); (68801, [68737]); (68802, [68738]); (68803, [68739]);
   (68804, [68740]); (68805, [68741]); (68806, [68742]); (68807, [68743]);
   (68808, [68744]); (68809, [68745]); (68810, [68746]); (68811, [68747]);
   (68812, [68748]); (68813, [68749]); (68814, [68750]); (68815, [68751]);
   (68816, [68752]); (68817, [68753]); (68818, [68754]); (68819, [68755]);
   (68820, [68756]); (68821, [68757]); (68822, [68758]); (68823, [68759]);
   (68824, [68760]); (68825, [68761]); (68826, [68762]); (68827, [68763]);
   (68828, [68764]); (68829, [68765]); (68830, [68766]); (68831, [68767]);
   (68832, [68768]); (68833, [68769]); (68834, [68770]); (68835, [68771]);
   (68836, [68772]); (68837, [68773]); (68838, [68774]); (68839, [68775]);
   (68840, [68776]); (68841, [68777]); (68842, [68778]); (68843, [68779]);
   (68844, [68780]); (68845, [68781]); (68846, [68782]); (68847, [68783]);
   (68848, [68784]); (68849, [68785]); (68850, [68786]); (71872, [71840]);
   (71873, [71841]); (71874, [71842]); (71875, [71843]); (71876, [71844]);
   (71877, [71845]); (71878, [71846]); (71879, [71847]); (71880, [71848]);
   (71881, [71849]); (71882, [71850]); (71883, [71851]); (71884, [71852]);
   (71885, [71853]); (71886, [71854]); (71887, [71855]); (71888, [71856]);
   (71889, [71857]); (71890, [71858]); (71891, [71859]); (71892, [71860]);
   (71893, [71861]); (71894, [71862]); (71895, [71863]); (71896, [71864]);
   (71897, [71865]); (71898, [71866]); (71899, [71867]); (71900, [71868]);
   (71901, [71869]); (71902, [71870]); (71903, [71871]); (93792, [93760]);
   (93793, [93761]); (93794, [93762]); (93795, [93763]); (93796, [93764]);
   (93797, [93765]); (93798, [93766]); (93799, [93767]); (93800, [93768]);
   (93801, [93769]); (93802, [93770]); (93803, [93771]); (93804, [93772]);
   (93805, [93773]); (93806, [93774]); (93807, [93775]); (93808, [93776]);
   (93809, [93777]); (93810, [93778]); (93811, [93779]); (93812, [93780]);
   (93813, [93781]); (93814, [93782]); (93815, [93783]); (93816, [93784]);
   (93817, [93785]); (93818, [93786]); (93819, [93787]); (93820, [93788]);
   (93821, [93789]); (93822, [93790]); (93823, [93791]); (125218, [125184]);
   (125219, [125185]); (125220, [125186]); (125221, [125187]);
   (125222, [125188]); (125223, [125189]); (125224, [125190]);
   (125225, [125191]); (125226, [125192]); (125227, [125193]);
   (125228, [125194]); (125229, [125195]); (125230, [125196]);
   (125231, [125197]); (125232, [125198]); (125233, [125199]);
   (125234, [125200]); (125235, [125201]); (125236, [125202]);
   (125237, [125203]); (125238, [125204]); (125239, [125205]);
   (125240, [125206]); (125241, [125207]); (125242, [125208]);
   (125243, [125209]); (125244, [125210]); (125245, [125211]);
   (125246, [125212]); (125247, [125213]); (125248, [125214]);
   (125249, [125215]); (125250, [125216]); (125251, [125217])]%N.

Fixpoint assoc (c : N) (tbl : list (N * list N)) : option (list N) :=
  match tbl with
  | [] => None
  | (k, r) :: tbl' => if (c =? k)%N then Some r else assoc c tbl'
  end.

Definition toupper_unicode (c : N) : list N :=
  match assoc c toupper_table with
  | Some r => r
  | None => [c]
  end.

(** An entry of the table that obeys the laws the normalizer needs: the
    character is no white space, and its mapping is not empty, holds no
    white space and is upper case already. *)
Definition entry_ok (e : N * list N) : bool :=
  (128 <=? e.1)%N && negb (Py.isspace e.1)
  && negb (bool_decide (e.2 = []))
  && forallb (fun d => negb (Py.isspace d)) e.2
  && bool_decide (Py.upper toupper_unicode e.2 = e.2).

(** A label with white space around it, a sharp s and a non-breaking
    space. *)
Definition sample_label : Cell :=
  Text (Py.lit "  stra" ++ [223; 101; 160; 32]%N).

Definition T (s : string) : Cell := Text (Py.lit s).

(** A table whose header stands in its first row, under integer labels. *)
Definition sample_shifted : DataFrame :=
  FlatDF (Frame
    (Obj ∘ Py.lit <$> ["0"; "1"; "2"; "3"; "4"; "5"; "6"; "7"]%string)
    [(0%Z, T <$> ["Scrip"; "LDCP"; "Open"; "High"; "Low"; "Current";
                   "Change"; "Volume"]%string);
     (1%Z, T <$> ["AAA"; "10"; "10"; "11"; "9"; "10.5"; "+0.5"; "1000"]%string)]).

(** A table with an unnamed first column, whose first row repeats a part of
    the header. *)
Definition sample_unnamed : DataFrame :=
  FlatDF (Frame
    (T <$> ["Unnamed: 0"; "LDCP"; "OPEN"; "HIGH"; "LOW"; "CURRENT"; "CHANGE";
            "VOLUME"]%string)
    [(0%Z, T <$> ["SCRIP"; "LDCP"; "OPEN"; "HIGH"; "-"; "-"; "-"; "-"]%string);
     (1%Z, T <$> ["AAA"; "10"; "10"; "11"; "9"; "10.5"; "+0.5"; "1000"]%string)]).

(** A table with a header row repeated among the data and white space around
    a symbol. *)
Definition sample_repeated : DataFrame :=
  FlatDF (Frame
    (T <$> ["SCRIP"; "LDCP"; "OPEN"; "HIGH"; "LOW"; "CURRENT"; "CHANGE";
            "VOLUME"]%string)
    [(0%Z, T <$> [" AAA "; "10"; "10"; "11"; "9"; "10.5"; "+0.5"; "1000"]%string);
     (1%Z, T <$> ["Scrip"; "LDCP"; "OPEN"; "HIGH"; "LOW"; "CURRENT"; "CHANGE";
                   "VOLUME"]%string);
     (2%Z, T <$> ["BBB"; "20"; "20"; "21"; "19"; "20.5"; "-0.5"; "2000"]%string)]).

(** What the normalizer returns for it. *)
Definition sample_repeated_cleaned : frame Cell :=
  Frame
    (T <$> ["SCRIP"; "LDCP"; "OPEN"; "HIGH"; "LOW"; "CURRENT"; "CHANGE";
            "VOLUME"]%string)
    [(0%Z, T <$> ["AAA"; "10"; "10"; "11"; "9"; "10.5"; "+0.5"; "1000"]%string);
     (2%Z, T <$> ["BBB"; "20"; "20"; "21"; "19"; "20.5"; "-0.5"; "2000"]%string)].

(** A table of quotes under the canonical header. *)
Definition sample_quotes : DataFrame :=
  FlatDF (Frame
    (T <$> ["SCRIP"; "LDCP"; "OPEN"; "HIGH"; "LOW"; "CURRENT"; "CHANGE";
            "VOLUME"]%string)
    [(0%Z, T <$> ["AAA"; "10"; "10"; "11"; "9"; "10.5"; "+0.5"; "1000"]%string)]).

(** A table of the page that holds no quotes. *)
Definition sample_menu : DataFrame :=
  FlatDF (Frame (T <$> ["Unnamed: 0"; "Sector"; "Count"]%string)
                [(0%Z, NaN :: (T <$> ["Banks"; "5"]%string))]).

(** A table with 6 of the canonical columns, in an order of its own. *)
Definition sample_six : DataFrame :=
  FlatDF (Frame
    (T <$> ["Volume"; "Scrip"; "Open"; "High"; "Low"; "Current"]%string)
    [(0%Z, T <$> ["3000"; "CCC"; "30"; "31"; "29"; "30.5"]%string)]).

(** A table of quotes whose numbers are numbers. *)
Definition sample_numbers : DataFrame :=
  FlatDF (Frame
    (T <$> ["SCRIP"; "LDCP"; "OPEN"; "HIGH"; "LOW"; "CURRENT"; "CHANGE";
            "VOLUME"]%string)
    [(0%Z, T "DDD" :: (Obj <$> (Py.lit <$> ["40"; "40"; "41"; "39"; "40.5";
                                            "0.5"; "4000"]%string)))]).

(** The table of quotes under a header of two levels. *)
Definition sample_two_levels : frame (list Cell) :=
  Frame
    ((fun c => [T "Market Summary"; T c])
       <$> ["SCRIP"; "LDCP"; "OPEN"; "HIGH"; "LOW"; "CURRENT"; "CHANGE";
            "VOLUME"]%string)
    [(0%Z, T <$> ["AAA"; "10"; "10"; "11"; "9"; "10.5"; "+0.5"; "1000"]%string)].

(** A table with the canonical header and no rows. *)
Definition sample_empty : DataFrame :=
  FlatDF (Frame
    (T <$> ["SCRIP"; "LDCP"; "OPEN"; "HIGH"; "LOW"; "CURRENT"; "CHANGE";
            "VOLUME"]%string)
    []).

(** The default arguments of [save_all_tables_single_sheet]. *)
Definition default_out_dir : Py.str := Py.lit "psx_output".
Definition default_excel_name : Py.str := Py.lit "psx_stocks_single_sheet.xlsx".

(** A string that is empty, or does not begin with white space. *)
Definition no_space_at_head (s : Py.str) : Prop :=
  match s with
  | [] => True
  | c :: _ => Py.isspace c = false
  end.

(** [t] is [s] without the white space at its two ends: [s] is [t] between
    two runs of white space, and [t] neither begins nor ends with white
    space. *)
Definition trimmed_of (s t : Py.str) : Prop :=
  exists pre suf,
    s = pre ++ t ++ suf
    /\ Forall (fun c => Py.isspace c = true) pre
    /\ Forall (fun c => Py.isspace c = true) suf
    /\ no_space_at_head t
    /\ no_space_at_head (rev t).

(** ** The page scraper, the question answerer and the script

    [scrape_all_tables], [messages_for], [summarize] and the Streamlit
    script of lines 151-186. What the browser shows, what [pd.read_html]
    finds in a page, how pandas prints a table and what the language model
    answers for a draw of its sampler are parameters; the calls made to the browser, to the file
    system, to the model and to Streamlit are recorded in order; the
    [with col1:] and [with col2:] blocks, which only place the widgets,
    are not. *)

Definition URL : Py.str := Py.lit "https://www.psx.com.pk/market-summary/#main".

(** [str(n)] for a natural number. *)
Definition str_of_nat (n : nat) : Py.str :=
  Py.lit (DecimalString.NilEmpty.string_of_uint (Nat.to_uint n)).

(** [df.empty]: an axis of the table has length 0. *)
Definition empty (f : frame Cell) : bool :=
  bool_decide (rows f = []) || bool_decide (columns f = []).

(** [df.head(n)] *)
Definition head (n : nat) (f : frame Cell) : frame Cell :=
  Frame (columns f) (take n (rows f)).

(** The calls of lines 28-39. *)
Inductive BrowserCall :=
  | Launch (headless : bool)
  | NewContext (user_agent : Py.str) (width height : Z) (locale : Py.str)
  | NewPage
  | Goto (url wait_until : Py.str) (timeout : Z)
  | WaitForTimeout (ms : Z)
  | Content
  | Close.

(** A message of a chat: [{"role": ..., "content": ...}]. *)
Record Message := { role : Py.str; content : Py.str }.

(** The calls to Streamlit. *)
Inductive StCall :=
  | set_page_config (page_title layout : Py.str)
  | title (body : Py.str)
  | error (body : Py.str)
  | text_input (label value : Py.str)
  | columns_ (spec : nat)
  | checkbox (label : Py.str) (value : bool)
  | slider (label : Py.str) (min_value max_value value : Z)
  | button (label : Py.str)
  | spinner (text : Py.str)
  | success (body : Py.str)
  | dataframe (data : frame Cell) (use_container_width : bool)
  | subheader (body : Py.str)
  | write (body : Py.str).

(** What a run does to the outside, in order. [Chat] is
    [OpenAI(api_key=...).chat.completions.create(model=..., messages=...)]. *)
Inductive Event :=
  | Browser (c : BrowserCall)
  | Fs (c : FsCall)
  | Chat (api_key model : Py.str) (messages : list Message)
  | St (c : StCall).

(** The calls to the model among the events. *)
Definition is_chat (e : Event) : bool :=
  match e with
  | Chat _ _ _ => true
  | _ => false
  end.

(** What the user has entered in the page when the script runs. *)
Record Widgets := {
  user_question : Py.str;
  headless : bool;
  wait_time : Z;
  run_clicked : bool
}.

Definition user_agent : Py.str := Py.lit "Mozilla/5.0 (Windows NT 10.0; Win64; x64)".
Definition system_prompt_text : Py.str :=
  Py.lit "
You are a PSX market analysis assistant. You will be given (1) a user question and (2) computed results produced by Python/pandas from PSX tabular data (columns like SCRIP, LDCP, OPEN, HIGH, LOW, CURRENT, CHANGE, VOLUME).

Rules:
- Use ONLY the provided computed results. Do not invent or assume any prices, volumes, ranks, symbols, sectors, dates, or trends.
- If the question requires data not present in the computed results, say exactly what is missing and what you can answer instead.
- Do NOT provide financial advice, buy/sell recommendations, or future predictions.
- Prefer short, clear explanations with bullet points.
- When citing numbers, repeat them exactly as provided.
Output format:
1) 1" ++ [8211]%N ++ Py.lit "2 line summary
2) Bullets with key observations
3) If needed: a short " ++ [8220]%N ++ Py.lit "Data limitations" ++ [8221]%N ++ Py.lit " note
".
Definition page_heading : Py.str :=
  Py.lit "PSX Market Summary " ++ [8212]%N ++ Py.lit " Live Scrape + OpenAI Answer".
Definition key_missing : Py.str :=
  Py.lit "OPENAI_API_KEY not found. Put it in .env or set it in your environment.".
Definition no_tables : Py.str :=
  Py.lit "No stock-sector tables detected after cleaning. Try increasing wait time or disabling headless.".
Definition question_label : Py.str :=
  Py.lit "Ask a question (example: 'tell the high and low volume stocks in psx')".
Definition question_default : Py.str := Py.lit "tell the high and low volume stocks in psx".

Section Script.
Variable toupper_full : N -> list N.
Variable to_common_dtype : list (frame Cell) -> nat -> Cell -> Py.str -> Py.str.
(** [page.content()] for a URL, a browser mode and a wait in milliseconds. *)
Variable page_content : Py.str -> bool -> Z -> Py.str.
(** [pd.read_html]; [None] is the [ValueError] raised for a page without
    tables. *)
Variable read_html : Py.str -> option (list DataFrame).
(** [df.to_string(index=False)] *)
Variable to_string : frame Cell -> Py.str.
(** The text of the first choice of the completion. The model samples its
    answer, and lines 142-146 set neither a seed nor a temperature: the key,
    the model and the messages sent do not determine the text, which depends
    also on the draw of the sampler in that call. *)
Variable chat_completion : nat -> Py.str -> Py.str -> list Message -> Py.str.

(** Lines 27-44: the tables found, and the calls made to the browser. *)
Definition scrape_all_tables (url : Py.str) (wait_time : Z) (headless : bool)
    : list DataFrame * list BrowserCall :=
  let html := page_content url headless (wait_time * 1000) in
  (match read_html html with
   | Some tables => tables
   | None => []
   end,
   [Launch headless;
    NewContext user_agent 1280 720 (Py.lit "en-US");
    NewPage;
    Goto url (Py.lit "domcontentloaded") 60000;
    WaitForTimeout (wait_time * 1000);
    Content;
    Close]).

(** Lines 116-137. *)
Definition messages_for (combined_df : frame Cell) (user_question : Py.str)
    : list Message :=
  let system_prompt := Py.strip system_prompt_text in
  let df_text := to_string combined_df in
  [ {| role := Py.lit "system"; content := system_prompt |};
    {| role := Py.lit "user";
       content := Py.strip user_question ++ [10; 10]%N ++ df_text |} ].

(** Lines 140-146: the answer, and the call made, when the sampler draws
    [draw]. *)
Definition summarize (api_key : Py.str) (combined_df : frame Cell)
    (user_question : Py.str) (draw : nat) : Py.str * list Event :=
  let messages := messages_for combined_df user_question in
  let model := Py.lit "gpt-4.1-mini" in
  (chat_completion draw api_key model messages,
   [Chat api_key model messages]).

(** Lines 151-186: one run of the script, for the key found in the
    environment, the state of the widgets and the draw of the sampler if the
    model is asked. [st.stop()] ends the run. *)
Definition script (api_key : option Py.str) (w : Widgets) (draw : nat)
    : list Event :=
  [St (set_page_config (Py.lit "PSX Analyzer") (Py.lit "wide"));
   St (title page_heading)] ++
  match api_key with
  | None | Some [] => [St (error key_missing)]
  | Some key =>
      [St (text_input question_label question_default);
       St (columns_ 2);
       St (checkbox (Py.lit "Headless browser") true);
       St (slider (Py.lit "Wait time (seconds)") 3 30 15);
       St (button (Py.lit "Run (Scrape + Ask OpenAI)"))] ++
      if run_clicked w then
        let '(tables, visits) :=
          scrape_all_tables URL (wait_time w) (headless w) in
        let '(combined_df, saved) :=
          save_all_tables_single_sheet toupper_full to_common_dtype tables
            default_out_dir default_excel_name in
        [St (spinner (Py.lit "Scraping PSX tables..."))] ++
        (Browser <$> visits) ++ (Fs <$> saved) ++
        match combined_df with
        | None => [St (error no_tables)]
        | Some df =>
            if empty df then [St (error no_tables)]
            else
              let '(answer, asked) :=
                summarize key df (user_question w) draw in
              [St (success (Py.lit "Scraped rows: " ++ str_of_nat (len df)
                            ++ Py.lit " | cols: "
                            ++ str_of_nat (length (columns df))));
               St (dataframe (head 30 df) true);
               St (spinner (Py.lit "Calling OpenAI..."))] ++
              asked ++
              [St (subheader (Py.lit "Bot Answer")); St (write answer)]
        end
      else []
  end.
End Script.

(** ** Sample runs *)

(** A table in which two columns bear the label SCRIP. *)
Definition sample_duplicated : frame Cell :=
  Frame (T <$> ["SCRIP"; "LDCP"; "SCRIP"]%string)
        [(0%Z, T <$> ["AAA"; "10"; "ZZZ"]%string)].

Definition sample_key : Py.str := Py.lit "sk-sample".

Definition sample_widgets : Widgets :=
  {| user_question := question_default; headless := true; wait_time := 15;
     run_clicked := true |}.

(** A page, the tables found in it, a rendering of a table and an answer,
    to run the script on. *)
Definition sample_page (url : Py.str) (headless : bool) (ms : Z) : Py.str :=
  Py.lit "<html></html>".
Definition sample_tables (tables : option (list DataFrame)) (html : Py.str)
    : option (list DataFrame) := tables.
Definition sample_to_string (f : frame Cell) : Py.str :=
  str_of_nat (len f) ++ Py.lit " rows".
Definition sample_answer (draw : nat) (key model : Py.str)
    (messages : list Message) : Py.str :=
  match draw with
  | 0 => Py.lit "- AAA has the highest volume"
  | _ => Py.lit "- The highest volume is that of AAA"
  end.

(** The values under a label in the tables that have it. *)
Definition values_under (c : Cell) (all : list (frame Cell)) : list Cell :=
  flat_map (fun f => if bool_decide (c ∈ columns f)
                     then (fun r : Row => cell_at (columns f) c r.2) <$> rows f
                     else []) all.

(** The text of a whole number. *)
Definition is_whole (r : Py.str) : bool :=
  match r with
  | [] => false
  | _ => forallb (fun x => (48 <=? x)%N && (x <=? 57)%N) r
  end.

(** A conversion to the common dtype of a column, for tables of texts and
    numbers: a column in which a table has a text is of dtype object and
    keeps its values; otherwise, when a table lacks the column or has a number
    with a point in it, the column is of dtype float64 and a whole number of
    it is written as a float. *)
Definition sample_common_dtype (all : list (frame Cell)) (k : nat) (c : Cell)
    (r : Py.str) : Py.str :=
  let values := values_under c all in
  let object :=
    existsb (fun v => match v with Text _ => true | Obj _ => false end)
      values in
  let float :=
    existsb (fun f => negb (bool_decide (c ∈ columns f))) all
    || existsb (fun v => match v with
                         | Text _ => false
                         | Obj r' => negb (is_whole r')
                         end) values in
  if negb object && float && is_whole r then r ++ Py.lit ".0" else r.

(** * Properties *)

(** ** Strings *)

Lemma lstrip_fixed s : no_space_at_head s -> Py.lstrip s = s.
Proof. destruct s as [|c s]; simpl; [done|]. by intros ->. Qed.

Lemma lstrip_head s : no_space_at_head (Py.lstrip s).
Proof.
  induction s as [|c s IH]; simpl; [done|].
  destruct (Py.isspace c) eqn:E; [done|]. exact E.
Qed.

Lemma lstrip_suffix s : exists pre, s = pre ++ Py.lstrip s.
Proof.
  induction s as [|c s [pre IH]]; simpl; [by exists []|].
  destruct (Py.isspace c).
  - exists (c :: pre). simpl. by f_equal.
  - by exists [].
Qed.

Lemma rstrip_prefix s : exists suf, s = Py.rstrip s ++ suf.
Proof.
  unfold Py.rstrip. destruct (lstrip_suffix (rev s)) as [pre E].
  exists (rev pre). rewrite <- rev_app_distr, <- E. by rewrite rev_involutive.
Qed.

Lemma head_of_prefix s t : no_space_at_head (s ++ t) -> no_space_at_head s.
Proof. by destruct s. Qed.

Lemma strip_head s : no_space_at_head (Py.strip s).
Proof.
  unfold Py.strip. destruct (rstrip_prefix (Py.lstrip s)) as [suf E].
  apply head_of_prefix with suf. rewrite <- E. apply lstrip_head.
Qed.

Lemma strip_last s : no_space_at_head (rev (Py.strip s)).
Proof.
  unfold Py.strip, Py.rstrip. rewrite rev_involutive. apply lstrip_head.
Qed.

Lemma strip_fixed s :
  no_space_at_head s -> no_space_at_head (rev s) -> Py.strip s = s.
Proof.
  intros H1 H2. unfold Py.strip, Py.rstrip.
  rewrite (lstrip_fixed s H1), (lstrip_fixed _ H2). apply rev_involutive.
Qed.

Lemma strip_idempotent s : Py.strip (Py.strip s) = Py.strip s.
Proof. apply strip_fixed; [apply strip_head | apply strip_last]. Qed.

Lemma lstrip_spec s :
  exists pre,
    s = pre ++ Py.lstrip s /\ Forall (fun c => Py.isspace c = true) pre.
Proof.
  induction s as [|c s (pre & IH & Hpre)]; simpl; [by exists []|].
  destruct (Py.isspace c) eqn:E.
  - exists (c :: pre). split; [simpl; by f_equal|by constructor].
  - by exists [].
Qed.

Lemma rstrip_spec s :
  exists suf,
    s = Py.rstrip s ++ suf /\ Forall (fun c => Py.isspace c = true) suf.
Proof.
  unfold Py.rstrip. destruct (lstrip_spec (rev s)) as (pre & E & Hpre).
  exists (rev pre). split; [|by apply Forall_rev].
  rewrite <- rev_app_distr, <- E. by rewrite rev_involutive.
Qed.

(** [str.strip] removes the white space at the two ends, and nothing else. *)
Lemma strip_trimmed s : trimmed_of s (Py.strip s).
Proof.
  destruct (lstrip_spec s) as (pre & E1 & Hpre).
  destruct (rstrip_spec (Py.lstrip s)) as (suf & E2 & Hsuf).
  exists pre, suf. unfold Py.strip at 1. rewrite <- E2.
  split; [done|]. split; [done|]. split; [done|].
  split; [apply strip_head|apply strip_last].
Qed.

Lemma lstrip_In c s : In c (Py.lstrip s) -> In c s.
Proof.
  destruct (lstrip_suffix s) as [pre E]. intros H.
  rewrite E. apply in_or_app. by right.
Qed.

Lemma strip_In c s : In c (Py.strip s) -> In c s.
Proof.
  unfold Py.strip, Py.rstrip. intros H.
  apply in_rev, lstrip_In, in_rev in H. by apply lstrip_In.
Qed.

Lemma replace_not_In old new s : old <> new -> ~ In old (Py.replace old new s).
Proof.
  intros Hne H. unfold Py.replace in H. apply in_map_iff in H as (c & E & _).
  destruct (N.eqb_spec c old); congruence.
Qed.

Lemma replace_fixed old new s : ~ In old s -> Py.replace old new s = s.
Proof.
  induction s as [|c s IH]; simpl; [done|]. intros H.
  destruct (N.eqb_spec c old) as [->|_].
  - exfalso. apply H. by left.
  - f_equal. apply IH. intros Hin. apply H. by right.
Qed.

Lemma ascii_upper_ascii c : (c < 128)%N -> (Py.ascii_upper c < 128)%N.
Proof.
  intros H. unfold Py.ascii_upper.
  destruct ((97 <=? c) && (c <=? 122))%N; lia.
Qed.

Lemma ascii_upper_idempotent c :
  Py.ascii_upper (Py.ascii_upper c) = Py.ascii_upper c.
Proof.
  unfold Py.ascii_upper.
  destruct ((97 <=? c) && (c <=? 122))%N eqn:E; [|by rewrite E].
  apply andb_true_iff in E as [E1%N.leb_le E2%N.leb_le].
  destruct (N.leb_spec 97 (c - 32)); [lia | done].
Qed.

Ltac N_cases :=
  repeat match goal with
         | |- context [(?a <=? ?b)%N] => destruct (N.leb_spec a b); try lia
         | |- context [(?a <? ?b)%N] => destruct (N.ltb_spec a b); try lia
         | |- context [(?a =? ?b)%N] => destruct (N.eqb_spec a b); try lia
         | |- _ => progress simpl
         end.

Lemma ascii_upper_space c :
  Py.isspace (Py.ascii_upper c) = Py.isspace c.
Proof.
  unfold Py.ascii_upper.
  destruct ((97 <=? c) && (c <=? 122))%N eqn:E; [|done].
  apply andb_true_iff in E as [E1%N.leb_le E2%N.leb_le].
  unfold Py.isspace. N_cases; reflexivity.
Qed.

Lemma upper_app t s1 s2 :
  Py.upper t (s1 ++ s2) = Py.upper t s1 ++ Py.upper t s2.
Proof. apply flat_map_app. Qed.

Lemma rev_flat_map {A B} (g : A -> list B) (l : list A) :
  rev (flat_map g l) = flat_map (fun a => rev (g a)) (rev l).
Proof.
  induction l as [|a l IH]; simpl; [done|].
  rewrite rev_app_distr, IH, flat_map_app. simpl. by rewrite app_nil_r.
Qed.


Section UpperLaws.
Variable toupper_full : N -> list N.

(** What the normalizer needs of the upper-case table: a mapping is upper
    case already, a white-space character is its own upper case, and the
    mapping of any other character is not empty and holds no white space. *)
Hypothesis toupper_idempotent : forall c, (128 <= c)%N ->
  Py.upper toupper_full (toupper_full c) = toupper_full c.
Hypothesis toupper_space : forall c, (128 <= c)%N ->
  Py.isspace c = true -> toupper_full c = [c].
Hypothesis toupper_no_space : forall c, (128 <= c)%N ->
  Py.isspace c = false ->
  toupper_full c <> [] /\ Forall (fun d => Py.isspace d = false) (toupper_full c).

Lemma upper_char_no_space c : Py.isspace c = false ->
  Py.upper_char toupper_full c <> [] /\
  Forall (fun d => Py.isspace d = false) (Py.upper_char toupper_full c).
Proof.
  intros Hc. unfold Py.upper_char. destruct (N.ltb_spec c 128).
  - split; [done|]. constructor; [|constructor].
    by rewrite ascii_upper_space.
  - by apply toupper_no_space.
Qed.

Lemma upper_char_idempotent c :
  Py.upper toupper_full (Py.upper_char toupper_full c)
  = Py.upper_char toupper_full c.
Proof.
  destruct (N.ltb_spec c 128) as [Hc|Hc].
  - pose proof (ascii_upper_ascii c Hc) as Hu.
    assert (E : Py.upper_char toupper_full c = [Py.ascii_upper c]).
    { unfold Py.upper_char. by destruct (N.ltb_spec c 128); [|lia]. }
    rewrite E. simpl. unfold Py.upper_char.
    destruct (N.ltb_spec (Py.ascii_upper c) 128); [|lia].
    by rewrite ascii_upper_idempotent.
  - assert (E : Py.upper_char toupper_full c = toupper_full c).
    { unfold Py.upper_char. by destruct (N.ltb_spec c 128); [lia|]. }
    rewrite E. by apply toupper_idempotent.
Qed.

Lemma upper_idempotent s :
  Py.upper toupper_full (Py.upper toupper_full s) = Py.upper toupper_full s.
Proof.
  induction s as [|c s IH]; simpl; [done|].
  rewrite upper_app, IH. f_equal. apply upper_char_idempotent.
Qed.

Lemma upper_char_nbsp c : c <> 160%N -> ~ In 160%N (Py.upper_char toupper_full c).
Proof.
  intros Hc Hin. destruct (Py.isspace c) eqn:Hs.
  - unfold Py.upper_char in Hin. destruct (N.ltb_spec c 128) as [Hlt|Hge].
    + pose proof (ascii_upper_ascii c Hlt). destruct Hin as [E|[]]. lia.
    + rewrite (toupper_space c Hge Hs) in Hin. destruct Hin as [E|[]]. done.
  - destruct (upper_char_no_space c Hs) as [_ Hall].
    rewrite Forall_forall in Hall. apply list_elem_of_In in Hin.
    by specialize (Hall _ Hin).
Qed.

Lemma upper_nbsp s : ~ In 160%N s -> ~ In 160%N (Py.upper toupper_full s).
Proof.
  intros Hs Hin. unfold Py.upper in Hin.
  apply in_flat_map in Hin as (c & Hc & Hin).
  apply (upper_char_nbsp c); [|done]. intros ->. by apply Hs.
Qed.

Lemma flat_map_head (g : N -> list N) s :
  (forall c, Py.isspace c = false ->
     g c <> [] /\ Forall (fun d => Py.isspace d = false) (g c)) ->
  no_space_at_head s -> no_space_at_head (flat_map g s).
Proof.
  intros Hg. destruct s as [|c s]; simpl; [done|]. intros Hc.
  destruct (Hg c Hc) as [Hne Hall]. destruct (g c) as [|d ds]; [done|].
  simpl. by inversion Hall.
Qed.

Lemma upper_head s :
  no_space_at_head s -> no_space_at_head (Py.upper toupper_full s).
Proof. apply flat_map_head, upper_char_no_space. Qed.

Lemma upper_last s :
  no_space_at_head (rev s) -> no_space_at_head (rev (Py.upper toupper_full s)).
Proof.
  unfold Py.upper. rewrite rev_flat_map. apply flat_map_head.
  intros c Hc. destruct (upper_char_no_space c Hc) as [Hne Hall]. split.
  - intros E. apply Hne. by rewrite <- (rev_involutive _), E.
  - by apply Forall_rev.
Qed.

(** C8. The label normalization [_norm] (non-breaking space replaced by a
    space, white space trimmed at both ends, upper-cased) is idempotent:
    [_norm(_norm(x)) = _norm(x)] for every [x], on any upper-case table in
    which a mapping is upper case already and white space is kept apart from
    the other characters. *)
Theorem norm_idempotent (x : Cell) :
  _norm toupper_full (Text (_norm toupper_full x)) = _norm toupper_full x.
Proof.
  unfold _norm at 1. simpl.
  set (y := Py.strip (Py.replace 160 32 (str x))).
  assert (Hy : ~ In 160%N y).
  { intros H. apply strip_In in H. by apply replace_not_In in H. }
  fold y. unfold _norm. fold y.
  rewrite (replace_fixed _ _ _ (upper_nbsp y Hy)).
  rewrite strip_fixed.
  - apply upper_idempotent.
  - apply upper_head, strip_head.
  - apply upper_last, strip_last.
Qed.

End UpperLaws.

(** The table of CPython 3.11 obeys the three laws. *)

Lemma toupper_table_ok : forallb entry_ok toupper_table = true.
Proof. vm_compute. reflexivity. Qed.

Lemma assoc_In c tbl r : assoc c tbl = Some r -> In (c, r) tbl.
Proof.
  induction tbl as [|[k r'] tbl IH]; simpl; [done|].
  destruct (N.eqb_spec c k) as [->|_].
  - intros [= ->]. by left.
  - intros H. right. by apply IH.
Qed.

Lemma toupper_table_entry c r :
  assoc c toupper_table = Some r ->
  Py.isspace c = false /\ r <> []
  /\ Forall (fun d => Py.isspace d = false) r
  /\ Py.upper toupper_unicode r = r.
Proof.
  intros H%assoc_In.
  pose proof (proj1 (forallb_forall _ _) toupper_table_ok _ H) as Hok.
  unfold entry_ok in Hok. cbn [fst snd] in Hok.
  apply andb_true_iff in Hok as [Hok Hup].
  apply andb_true_iff in Hok as [Hok Hall].
  apply andb_true_iff in Hok as [Hok Hne].
  apply andb_true_iff in Hok as [_ Hsp].
  split; [by apply negb_true_iff|].
  split; [by apply (bool_decide_eq_false (r = [])), negb_true_iff|].
  split; [|by apply (bool_decide_eq_true _)].
  apply Forall_forall. intros d Hd%list_elem_of_In.
  apply negb_true_iff, (proj1 (forallb_forall _ _) Hall _ Hd).
Qed.

Lemma toupper_unicode_idempotent c : (128 <= c)%N ->
  Py.upper toupper_unicode (toupper_unicode c) = toupper_unicode c.
Proof.
  intros Hc. unfold toupper_unicode at 2 3.
  destruct (assoc c toupper_table) as [r|] eqn:E.
  - by apply (toupper_table_entry c r).
  - simpl. unfold Py.upper_char. destruct (N.ltb_spec c 128); [lia|].
    unfold toupper_unicode. by rewrite E.
Qed.

Lemma toupper_unicode_space c : (128 <= c)%N ->
  Py.isspace c = true -> toupper_unicode c = [c].
Proof.
  intros _ Hs. unfold toupper_unicode.
  destruct (assoc c toupper_table) as [r|] eqn:E; [|done].
  apply toupper_table_entry in E as [E _]. congruence.
Qed.

Lemma toupper_unicode_no_space c : (128 <= c)%N ->
  Py.isspace c = false ->
  toupper_unicode c <> [] /\
  Forall (fun d => Py.isspace d = false) (toupper_unicode c).
Proof.
  intros _ Hs. unfold toupper_unicode.
  destruct (assoc c toupper_table) as [r|] eqn:E.
  - apply toupper_table_entry in E as (_ & ? & ? & _). done.
  - split; [done|]. by constructor.
Qed.

Lemma norm_idempotent_witness :
  _norm toupper_unicode (Text (_norm toupper_unicode sample_label))
  = _norm toupper_unicode sample_label
  /\ _norm toupper_unicode sample_label = Py.lit "STRASSE".
Proof.
  split.
  - exact (norm_idempotent toupper_unicode toupper_unicode_idempotent
             toupper_unicode_space toupper_unicode_no_space sample_label).
  - vm_compute. reflexivity.
Defined.

(** ** Tables *)

Lemma CANON_NoDup : NoDup CANON.
Proof. apply (bool_decide_unpack _). vm_compute. exact I. Qed.

Lemma CANON_length : length CANON = 8.
Proof. reflexivity. Qed.

#[global] Instance Text_inj : Inj (=) (=) Text.
Proof. intros a b E. by injection E. Qed.

Lemma keep_sublist {A} (mask : list bool) (l : list A) :
  keep mask l `sublist_of` l.
Proof.
  revert mask. induction l as [|x l IH]; intros [|b mask]; simpl;
    try apply sublist_nil_l.
  destruct b; constructor; apply IH.
Qed.

Lemma keep_fmap_elem {A} (p : A -> bool) (l : list A) x :
  x ∈ keep (p <$> l) l <-> x ∈ l /\ p x = true.
Proof.
  induction l as [|a l IH]; simpl.
  - rewrite elem_of_nil. tauto.
  - destruct (p a) eqn:E; rewrite ?elem_of_cons, IH, ?elem_of_cons.
    + split; [intros [->|[? ?]]; tauto|tauto].
    + split; [tauto|]. intros [[->|?] ?]; [congruence|tauto].
Qed.

(** The first occurrences of the labels not seen before. *)
Lemma keep_not_duplicated_from seen labels :
  NoDup (keep (negb <$> duplicated_from seen labels) labels) /\
  forall c, c ∈ keep (negb <$> duplicated_from seen labels) labels
            <-> c ∈ labels /\ c ∉ seen.
Proof.
  revert seen. induction labels as [|a labels IH]; intros seen; simpl.
  - split; [constructor|]. intros c. rewrite elem_of_nil. tauto.
  - destruct (IH (a :: seen)) as [Hnd Hin].
    case_bool_decide as Ha; simpl.
    + split; [done|]. intros c. rewrite Hin, !elem_of_cons.
      destruct (decide (c = a)) as [->|Hne]; intuition auto.
    + split.
      * constructor; [|done]. rewrite Hin, elem_of_cons. intuition auto.
      * intros c. rewrite elem_of_cons, Hin, !elem_of_cons.
        destruct (decide (c = a)) as [->|Hne]; intuition auto.
Qed.

Lemma drop_duplicated_NoDup f : NoDup (columns (drop_duplicated f)).
Proof. apply keep_not_duplicated_from. Qed.

Lemma drop_duplicated_columns f c :
  c ∈ columns (drop_duplicated f) <-> c ∈ columns f.
Proof.
  unfold drop_duplicated, duplicated. simpl.
  rewrite (proj2 (keep_not_duplicated_from [] (columns f))).
  rewrite elem_of_nil. tauto.
Qed.

Lemma len_drop_duplicated f : len (drop_duplicated f) = len f.
Proof. unfold len. simpl. apply length_fmap. Qed.

Lemma present_sublist f : present f `sublist_of` CANON.
Proof. apply sublist_filter. Qed.

Lemma present_NoDup f : NoDup (present f).
Proof. apply NoDup_filter, CANON_NoDup. Qed.

(** The canonical names present, counted as a set. *)
Lemma present_size f :
  length (present f) = size (filter (fun n => Text n ∈ columns f) CANON_SET).
Proof.
  assert (E : filter (fun n => Text n ∈ columns f) CANON_SET
              = list_to_set (present f)).
  { apply set_eq. intros n. unfold present, CANON_SET.
    rewrite elem_of_filter, !elem_of_list_to_set, list_elem_of_filter. tauto. }
  rewrite E. symmetry. apply size_list_to_set, present_NoDup.
Qed.

Lemma project_columns f : columns (project f) = Text <$> present f.
Proof. reflexivity. Qed.

Lemma project_row_width f r :
  r ∈ rows (project f) -> length r.2 = length (columns (project f)).
Proof.
  unfold project, getitem. simpl. intros (r0 & -> & _)%list_elem_of_fmap.
  simpl. by rewrite !length_fmap.
Qed.


Lemma get_loc_lookup c labels :
  c ∈ labels -> labels !! get_loc c labels = Some c.
Proof.
  induction labels as [|a labels IH]; simpl.
  - by intros ?%elem_of_nil.
  - intros Hin. case_decide as Ha; [by subst|].
    apply elem_of_cons in Hin as [->|Hin]; [done|]. by apply IH.
Qed.

Lemma filter_fmap_commute {A B} (g : A -> B) (P : B -> Prop) (Q : A -> Prop)
    `{!forall y, Decision (P y)} `{!forall x, Decision (Q x)} (l : list A) :
  (forall x, x ∈ l -> P (g x) <-> Q x) ->
  filter P (g <$> l) = g <$> filter Q l.
Proof.
  induction l as [|x l IH]; intros HPQ; [done|].
  rewrite fmap_cons, !filter_cons.
  rewrite IH by (intros y Hy; apply HPQ; by right).
  specialize (HPQ x (list_elem_of_here _ _)).
  destruct (decide (P (g x))), (decide (Q x)); try done; tauto.
Qed.



Section Normalizer.
Variable toupper_full : N -> list N.
Abbreviation clean := (clean_table_to_stock_schema toupper_full).

(** C1. [clean_table_to_stock_schema] returns [None] exactly when, after
    header flattening, label normalization, dropping of the unnamed columns,
    promotion of a header found in the first row and dropping of the
    duplicate labels, fewer than 6 of the 8 canonical names are among the
    column labels. *)
Theorem rejected_iff_fewer_than_6 (df : DataFrame) :
  clean df = None
  <-> size (filter
              (fun n => Text n ∈
                 columns (drop_duplicated
                   (norm_columns toupper_full
                      (promote_header toupper_full
                         (drop_unnamed
                            (norm_columns toupper_full (flatten_header df)))))))
              CANON_SET) < 6.
Proof.
  rewrite <- present_size.
  unfold clean_table_to_stock_schema, select_schema, candidate, header_stage.
  destruct (Nat.ltb_spec (length (present (drop_duplicated
    (norm_columns toupper_full (promote_header toupper_full (drop_unnamed
      (norm_columns toupper_full (flatten_header df)))))))) 6);
    split; try done; lia.
Qed.

Lemma scrip_cleanup_columns out :
  columns (scrip_cleanup toupper_full out) = columns out.
Proof. unfold scrip_cleanup. by case_bool_decide. Qed.

Lemma scrip_cleanup_row_width out r :
  (forall r0, r0 ∈ rows out -> length r0.2 = length (columns out)) ->
  r ∈ rows (scrip_cleanup toupper_full out) ->
  length r.2 = length (columns out).
Proof.
  intros Hw. unfold scrip_cleanup. case_bool_decide; [|by apply Hw].
  simpl. intros [_ (r0 & -> & Hr0)%list_elem_of_fmap]%list_elem_of_filter.
  simpl. rewrite length_alter. by apply Hw.
Qed.

Lemma select_schema_Some f out :
  select_schema toupper_full f = Some out ->
  6 <= length (present f) /\ out = scrip_cleanup toupper_full (project f).
Proof.
  unfold select_schema. destruct (Nat.ltb_spec (length (present f)) 6); [done|].
  intros [= <-]. done.
Qed.

(** C2. Every table that [clean_table_to_stock_schema] does not reject has
    between 6 and 8 columns, every label is a canonical name, the columns
    stand in canonical order, no label occurs twice, every row has a cell
    for every column, and no cell of a SCRIP column is the text "SCRIP". *)
Theorem accepted_table_shape (df : DataFrame) (out : frame Cell) :
  clean df = Some out ->
  6 <= length (columns out) <= 8
  /\ (forall c, c ∈ columns out -> exists n, n ∈ CANON /\ c = Text n)
  /\ columns out `sublist_of` (Text <$> CANON)
  /\ NoDup (columns out)
  /\ (forall r, r ∈ rows out -> length r.2 = length (columns out))
  /\ (Text SCRIP ∈ columns out ->
      forall r, r ∈ rows out ->
        cell_at (columns out) (Text SCRIP) r.2 <> Text SCRIP).
Proof.
  unfold clean_table_to_stock_schema.
  intros [Hlen ->]%select_schema_Some.
  set (f := candidate toupper_full df) in *.
  rewrite scrip_cleanup_columns, project_columns, length_fmap.
  repeat split.
  - done.
  - rewrite <- CANON_length. apply sublist_length, present_sublist.
  - intros c (n & -> & Hn)%list_elem_of_fmap. exists n. split; [|done].
    by apply (elem_of_sublist _ _ _ Hn (present_sublist f)).
  - apply fmap_sublist, present_sublist.
  - apply (NoDup_fmap_2 Text), present_NoDup.
  - intros r Hr. rewrite <- length_fmap with (f := Text).
    rewrite <- project_columns.
    apply scrip_cleanup_row_width with (out := project f); [|done].
    apply project_row_width.
  - intros Hin r. unfold scrip_cleanup. rewrite project_columns.
    rewrite bool_decide_eq_true_2 by done. simpl.
    intros [Hr _]%list_elem_of_filter E. apply Hr.
    unfold cell_at in *. by rewrite E.
Qed.

Lemma len_scrip_cleanup out : len (scrip_cleanup toupper_full out) <= len out.
Proof.
  unfold scrip_cleanup, len. case_bool_decide; [|done]. simpl.
  etrans; [apply length_filter|]. by rewrite length_fmap.
Qed.

Lemma len_select_schema f out :
  select_schema toupper_full f = Some out -> len out <= len f.
Proof.
  intros [_ ->]%select_schema_Some. etrans; [apply len_scrip_cleanup|].
  unfold len, project, getitem. simpl. by rewrite length_fmap.
Qed.

Lemma header_stage_rows df :
  rows (header_stage toupper_full df)
  = (fun r : Row =>
       (r.1, keep ((fun c => negb (Py.startswith UNNAMED (_norm toupper_full c)))
                     <$> columns (flatten_header df)) r.2))
      <$> rows (flatten_header df).
Proof.
  unfold header_stage, drop_unnamed, loc_columns, norm_columns, set_columns.
  cbn [rows columns]. by rewrite <- list_fmap_compose.
Qed.

(** C3, amended. When the first row, without the cells under the unnamed
    columns, holds at least 4 canonical names after normalization, the
    normalized values of that row become the column labels, the row is
    taken out of the data and the rows after it are renumbered; the result
    is computed from those rows alone and has no more rows than they are. *)
Theorem header_row_promoted (df : DataFrame) (r0 : Row) (rest : list Row) :
  let named :=
    (fun c => negb (Py.startswith UNNAMED (_norm toupper_full c)))
      <$> columns (flatten_header df) in
  let row0 := _norm toupper_full <$> keep named r0.2 in
  let data := imap (fun i (r : Row) => (Z.of_nat i, keep named r.2)) rest in
  rows (flatten_header df) = r0 :: rest ->
  4 <= hits row0 ->
  promote_header toupper_full (header_stage toupper_full df)
    = Frame (Text <$> row0) data
  /\ clean df
     = select_schema toupper_full
         (drop_duplicated
            (norm_columns toupper_full (Frame (Text <$> row0) data)))
  /\ forall out, clean df = Some out -> len out <= length rest.
Proof.
  intros named row0 data Hrows Hhits.
  assert (E : promote_header toupper_full (header_stage toupper_full df)
              = Frame (Text <$> row0) data).
  { unfold promote_header. rewrite header_stage_rows, Hrows.
    fold named. rewrite fmap_cons. cbn [snd]. fold row0.
    destruct (Nat.leb_spec 4 (hits row0)); [|lia].
    unfold reset_index, iloc_from, set_columns. cbn [rows columns].
    rewrite header_stage_rows, Hrows. fold named.
    rewrite fmap_cons. cbn [drop]. f_equal.
    unfold data. by rewrite drop_0, imap_fmap. }
  split; [done|].
  unfold clean_table_to_stock_schema, candidate. rewrite E.
  split; [done|].
  intros out Hout%len_select_schema.
  rewrite len_drop_duplicated in Hout. unfold len in Hout. simpl in Hout.
  unfold data in Hout. by rewrite length_imap in Hout.
Qed.


(** The innermost level of the labels of a header. *)
Lemma get_level_values_last_innermost tuples labels :
  Forall2 (fun tuple label => exists outer, tuple = outer ++ [label])
          tuples labels ->
  get_level_values_last tuples = labels.
Proof.
  induction 1 as [|tuple label tuples labels [outer ->] _ IH]; [done|].
  unfold get_level_values_last in *. rewrite fmap_cons, IH. f_equal.
  apply last_last.
Qed.

(** C7. On a table with a multi-level header the result is the result on
    the table with the same rows whose flat header is made of the innermost
    component of every label: what is done after the flattening sees the
    innermost components only. *)
Theorem flattening_commutes (f : frame (list Cell)) (g : frame Cell) :
  Forall2 (fun tuple label => exists outer, tuple = outer ++ [label])
          (columns f) (columns g) ->
  rows g = rows f ->
  clean (MultiDF f) = clean (FlatDF g).
Proof.
  intros Hlabels Hrows.
  assert (E : flatten_header (MultiDF f) = flatten_header (FlatDF g)).
  { unfold flatten_header, set_columns.
    rewrite (get_level_values_last_innermost _ _ Hlabels), <- Hrows.
    by destruct g. }
  unfold clean_table_to_stock_schema, candidate, header_stage. by rewrite E.
Qed.

Lemma canonical_fixed n :
  n ∈ CANON ->
  _norm toupper_full (Text n) = n /\ Py.startswith UNNAMED n = false.
Proof.
  unfold CANON. rewrite !fmap_cons, fmap_nil, !elem_of_cons, elem_of_nil.
  intros H. repeat destruct H as [->|H]; try done; split; reflexivity.
Qed.

Lemma promote_header_no_rows f :
  rows f = [] -> promote_header toupper_full f = f.
Proof. unfold promote_header. by intros ->. Qed.

Lemma select_schema_no_rows f out :
  rows f = [] -> select_schema toupper_full f = Some out -> rows out = [].
Proof.
  intros Hf [_ ->]%select_schema_Some.
  unfold scrip_cleanup, project, getitem, drop_header_rows, strip_scrip.
  case_bool_decide; cbn [rows]; by rewrite Hf.
Qed.

Lemma zero_row_table_accepted df :
  rows (flatten_header df) = [] ->
  6 <= size (filter
               (fun n => n ∈ _norm toupper_full <$> columns (flatten_header df))
               CANON_SET) ->
  exists out, clean df = Some out /\ rows out = [].
Proof.
  intros Hrows Hsize.
  assert (Hhs : rows (header_stage toupper_full df) = []).
  { by rewrite header_stage_rows, Hrows. }
  assert (Hcand : rows (candidate toupper_full df) = []).
  { unfold candidate. rewrite (promote_header_no_rows _ Hhs).
    unfold drop_duplicated, loc_columns, norm_columns, set_columns.
    cbn [rows]. by rewrite Hhs. }
  assert (Hlen : 6 <= length (present (candidate toupper_full df))).
  { rewrite present_size. etrans; [exact Hsize|]. apply subseteq_size.
    intros n [Hn Hcanon]%elem_of_filter. apply elem_of_filter.
    split; [|done]. apply elem_of_list_to_set in Hcanon.
    destruct (canonical_fixed n Hcanon) as [Hfix Hnamed].
    unfold candidate. rewrite (promote_header_no_rows _ Hhs).
    apply drop_duplicated_columns.
    unfold norm_columns at 1, set_columns. cbn [columns].
    apply list_elem_of_fmap. exists (Text n). split; [by rewrite Hfix|].
    unfold header_stage, drop_unnamed, loc_columns. cbn [columns].
    apply keep_fmap_elem. split.
    - unfold norm_columns, set_columns. cbn [columns].
      apply list_elem_of_fmap in Hn as (c & -> & Hc).
      apply list_elem_of_fmap. by exists c.
    - cbn [str]. by rewrite Hnamed. }
  unfold clean_table_to_stock_schema.
  destruct (select_schema toupper_full (candidate toupper_full df))
    as [out|] eqn:E.
  - exists out. split; [done|]. by apply (select_schema_no_rows _ _ Hcand).
  - exfalso. unfold select_schema in E.
    destruct (Nat.ltb_spec (length (present (candidate toupper_full df))) 6);
      [lia|done].
Qed.

End Normalizer.

(** ** The aggregator *)

Lemma union_columns_elem frames c :
  c ∈ union_columns frames <-> exists f, f ∈ frames /\ c ∈ columns f.
Proof.
  unfold union_columns, duplicated.
  rewrite (proj2 (keep_not_duplicated_from [] _)), list_elem_of_In, in_flat_map.
  setoid_rewrite list_elem_of_In. pose proof (not_elem_of_nil c). tauto.
Qed.

Lemma union_columns_NoDup frames : NoDup (union_columns frames).
Proof. apply keep_not_duplicated_from. Qed.

Lemma sum_list_with_eq {A} (g h : A -> nat) (l : list A) :
  (forall a, g a = h a) -> sum_list_with g l = sum_list_with h l.
Proof. intros E. induction l as [|a l IH]; simpl; [done|]. by rewrite E, IH. Qed.

Lemma sum_list_with_zero {A} (g : A -> nat) (l : list A) :
  (forall a, a ∈ l -> g a = 0) -> sum_list_with g l = 0.
Proof.
  induction l as [|a l IH]; intros H; simpl; [done|].
  rewrite (H a) by left. apply IH. intros b Hb. apply H. by right.
Qed.

(** The cell under a label of a row computed from the labels. *)
Lemma cell_at_fmap (g : Cell -> Cell) labels c :
  c ∈ labels -> cell_at labels c (g <$> labels) = g c.
Proof.
  intros Hc. unfold cell_at.
  by rewrite nth_lookup, list_lookup_fmap, (get_loc_lookup _ _ Hc).
Qed.

Section ConcatProperties.
Variable to_common_dtype : list (frame Cell) -> nat -> Cell -> Py.str -> Py.str.

(** One table alone is not converted. *)
Lemma unify_single f k c v : unify to_common_dtype [f] k c v = v.
Proof. reflexivity. Qed.

(** A [str] is never converted. *)
Lemma unify_Text all k c s : unify to_common_dtype all k c (Text s) = Text s.
Proof. by destruct all as [|f [|g all]]. Qed.

Lemma length_stack all labels k frames :
  length (stack to_common_dtype all labels k frames) = sum_list_with len frames.
Proof.
  revert k. induction frames as [|f frames IH]; intros k; simpl; [done|].
  by rewrite length_app, length_fmap, IH.
Qed.

(** Row [j] of the [k]-th of the tables stacked. *)
Lemma lookup_stack all labels k0 frames k f j r :
  frames !! k = Some f -> rows f !! j = Some r ->
  stack to_common_dtype all labels k0 frames
    !! (sum_list_with len (take k frames) + j)
  = Some (align to_common_dtype all labels (k0 + k) f r).
Proof.
  revert k0 k. induction frames as [|x frames IH]; intros k0 [|k]; simpl;
    try done.
  - intros [= ->] Hj. rewrite lookup_app_l.
    + rewrite list_lookup_fmap, Hj. simpl. by rewrite Nat.add_0_r.
    + rewrite length_fmap. by eapply lookup_lt_Some.
  - intros Hk Hj. rewrite lookup_app_r; rewrite length_fmap; [|unfold len; lia].
    replace (len x + sum_list_with len (take k frames) + j - length (rows x))
      with (sum_list_with len (take k frames) + j) by (unfold len; lia).
    rewrite (IH (S k0) k Hk Hj). do 2 f_equal. lia.
Qed.

(** Every row stacked comes from a row of one of the tables. *)
Lemma elem_of_stack all labels k0 frames r' :
  r' ∈ stack to_common_dtype all labels k0 frames ->
  exists k f r, frames !! k = Some f /\ r ∈ rows f
                /\ r' = align to_common_dtype all labels (k0 + k) f r.
Proof.
  revert k0. induction frames as [|x frames IH]; intros k0; simpl.
  - by intros ?%elem_of_nil.
  - intros [Hr|Hr]%elem_of_app.
    + apply list_elem_of_fmap in Hr as (r & -> & Hr).
      exists 0, x, r. by rewrite Nat.add_0_r.
    + destruct (IH _ Hr) as (k & f & r & Hk & Hin & ->).
      exists (S k), f, r. split; [done|]. split; [done|]. f_equal. lia.
Qed.

Lemma concat_columns frames :
  columns (concat to_common_dtype frames) = union_columns frames.
Proof. reflexivity. Qed.

Lemma len_concat frames :
  len (concat to_common_dtype frames) = sum_list_with len frames.
Proof.
  unfold len at 1, concat, reset_index. cbn [rows].
  by rewrite length_imap, length_stack.
Qed.

Lemma concat_index frames :
  fst <$> rows (concat to_common_dtype frames)
  = Z.of_nat <$> seq 0 (len (concat to_common_dtype frames)).
Proof.
  unfold len, concat, reset_index. cbn [rows].
  rewrite fmap_imap, length_imap. apply (imap_seq_0 _ Z.of_nat).
Qed.

(** The row that row [j] of the [k]-th frame becomes. *)
Lemma concat_row frames k f j r :
  frames !! k = Some f -> rows f !! j = Some r ->
  exists r',
    rows (concat to_common_dtype frames)
      !! (sum_list_with len (take k frames) + j) = Some r'
    /\ length r'.2 = length (columns (concat to_common_dtype frames))
    /\ forall c, c ∈ columns (concat to_common_dtype frames) ->
         (c ∈ columns f ->
            cell_at (columns (concat to_common_dtype frames)) c r'.2
            = unify to_common_dtype frames k c (cell_at (columns f) c r.2))
         /\ (c ∉ columns f ->
            cell_at (columns (concat to_common_dtype frames)) c r'.2 = NaN).
Proof.
  intros Hk Hj. rewrite concat_columns.
  set (labels := union_columns frames).
  set (n := sum_list_with len (take k frames) + j).
  exists (Z.of_nat n, (align to_common_dtype frames labels k f r).2).
  split; [|split].
  - unfold concat, reset_index. cbn [rows]. fold labels.
    rewrite list_lookup_imap. unfold n.
    by rewrite (lookup_stack frames labels 0 frames k f j r Hk Hj).
  - unfold align. cbn [snd]. apply length_fmap.
  - intros c Hc. unfold align. cbn [snd]. rewrite (cell_at_fmap _ _ _ Hc).
    split; intros Hf.
    + by rewrite bool_decide_eq_true_2.
    + by rewrite bool_decide_eq_false_2.
Qed.

End ConcatProperties.

Section AggregatorProperties.
Variable toupper_full : N -> list N.
Variable to_common_dtype : list (frame Cell) -> nat -> Cell -> Py.str -> Py.str.
Abbreviation clean := (clean_table_to_stock_schema toupper_full).
Abbreviation save :=
  (save_all_tables_single_sheet toupper_full to_common_dtype).

Lemma clean_all_from tables cleaned skipped :
  (foldl (fun '(cleaned, skipped) t =>
            match clean t with
            | None => (cleaned, S skipped)
            | Some fixed => (cleaned ++ [fixed], skipped)
            end)
         (cleaned, skipped) tables).1
  = cleaned ++ omap clean tables.
Proof.
  revert cleaned skipped.
  induction tables as [|t tables IH]; intros cleaned skipped; simpl.
  - by rewrite app_nil_r.
  - destruct (clean t) as [fixed|]; rewrite IH; [|done].
    by rewrite <- app_assoc.
Qed.

(** The accepted tables, in the order of the input. *)
Lemma clean_all_cleaned tables :
  (clean_all toupper_full tables).1 = omap clean tables.
Proof. apply clean_all_from. Qed.

Lemma omap_all_rejected tables :
  (forall t, t ∈ tables -> clean t = None) -> omap clean tables = [].
Proof.
  induction tables as [|t tables IH]; intros H; simpl; [done|].
  rewrite (H t) by left. apply IH. intros t' Ht'. apply H. by right.
Qed.

Lemma save_accepted tables out_dir excel_name :
  omap clean tables <> [] ->
  save tables out_dir excel_name
  = (Some (concat to_common_dtype (omap clean tables)),
     [Mkdir out_dir true true;
      ToExcel out_dir excel_name AllData false
        (concat to_common_dtype (omap clean tables))]).
Proof.
  intros Hne. unfold save_all_tables_single_sheet.
  destruct tables as [|t tables]; [done|].
  rewrite clean_all_cleaned. by destruct (omap clean (t :: tables)).
Qed.

(** C4. When the list is empty, or every table of it is rejected,
    [save_all_tables_single_sheet] returns [None] and makes no call to the
    file system: no directory is created and no file is written. *)
Theorem nothing_accepted_nothing_saved (tables : list DataFrame)
    (out_dir excel_name : Py.str) :
  tables = [] \/ (forall t, t ∈ tables -> clean t = None) ->
  save tables out_dir excel_name = (None, []).
Proof.
  intros [->|Hrej]; [done|]. unfold save_all_tables_single_sheet.
  destruct tables as [|t tables]; [done|].
  by rewrite clean_all_cleaned, omap_all_rejected.
Qed.

(** C5. When at least one table is accepted, the dataset returned has as
    many rows as the accepted tables together, its columns are the union of
    their columns, its index is 0, 1, 2, ... and the row that comes from a
    row of an accepted table has [nan] under every column that the table
    lacks and, under a column of the table in which the row holds a [str],
    that [str]. Nothing is said of a value of another type under a column of
    the table: [pd.concat] converts it to the common dtype of the column. *)
Theorem accepted_tables_concatenated (tables : list DataFrame)
    (out_dir excel_name : Py.str) :
  let accepted := omap clean tables in
  (exists t, t ∈ tables /\ is_Some (clean t)) ->
  exists combined,
    (save tables out_dir excel_name).1 = Some combined
    /\ len combined = sum_list_with len accepted
    /\ (forall c, c ∈ columns combined
                  <-> exists f, f ∈ accepted /\ c ∈ columns f)
    /\ fst <$> rows combined = Z.of_nat <$> seq 0 (len combined)
    /\ forall k f j r,
         accepted !! k = Some f -> rows f !! j = Some r ->
         exists r',
           rows combined !! (sum_list_with len (take k accepted) + j) = Some r'
           /\ length r'.2 = length (columns combined)
           /\ forall c, c ∈ columns combined ->
                (c ∈ columns f ->
                   forall s, cell_at (columns f) c r.2 = Text s ->
                             cell_at (columns combined) c r'.2 = Text s)
                /\ (c ∉ columns f ->
                   cell_at (columns combined) c r'.2 = NaN).
Proof.
  intros accepted (t & Ht & [out Hout]).
  assert (Hne : accepted <> []).
  { intros E. assert (Hin : out ∈ accepted).
    { apply list_elem_of_omap. eauto. }
    rewrite E in Hin. by apply elem_of_nil in Hin. }
  exists (concat to_common_dtype accepted). rewrite (save_accepted _ _ _ Hne).
  split; [done|]. split; [apply len_concat|].
  split; [apply union_columns_elem|].
  split; [apply concat_index|].
  intros k f j r Hk Hj.
  destruct (concat_row to_common_dtype accepted k f j r Hk Hj)
    as (r' & Hr' & Hwidth & Hcells).
  exists r'. split; [done|]. split; [done|].
  intros c Hc. destruct (Hcells c Hc) as [Hin Hout'].
  split; [|done]. intros Hf s Hs. by rewrite (Hin Hf), Hs, unify_Text.
Qed.

(** C10. A table without rows whose labels give at least 6 canonical names
    is accepted, with zero rows; and when every table of a non-empty list
    is accepted with zero rows, [save_all_tables_single_sheet] returns a
    dataset with zero rows, creates the directory and writes the workbook. *)
Theorem zero_row_tables_are_saved :
  (forall df : DataFrame,
     rows (flatten_header df) = [] ->
     6 <= size (filter
                  (fun n => n ∈ _norm toupper_full
                                  <$> columns (flatten_header df))
                  CANON_SET) ->
     exists out, clean df = Some out /\ rows out = [])
  /\ (forall (tables : list DataFrame) (out_dir excel_name : Py.str),
        tables <> [] ->
        (forall t, t ∈ tables -> exists out, clean t = Some out /\ rows out = []) ->
        exists combined,
          save tables out_dir excel_name
          = (Some combined,
             [Mkdir out_dir true true;
              ToExcel out_dir excel_name AllData false combined])
          /\ rows combined = []).
Proof.
  split; [apply zero_row_table_accepted|].
  intros tables out_dir excel_name Hne Hall.
  assert (Hacc : omap clean tables <> []).
  { destruct tables as [|t tables]; [done|].
    destruct (Hall t) as (out & Hout & _); [left|]. simpl. by rewrite Hout. }
  exists (concat to_common_dtype (omap clean tables)).
  split; [by apply save_accepted|].
  apply length_zero_iff_nil.
  fold (len (concat to_common_dtype (omap clean tables))).
  rewrite len_concat. apply sum_list_with_zero.
  intros f (t & Ht & Hf)%list_elem_of_omap.
  destruct (Hall t Ht) as (out & Hout & Hrows).
  rewrite Hf in Hout. injection Hout as ->. unfold len. by rewrite Hrows.
Qed.

End AggregatorProperties.

(** ** The store *)

Lemma wp_ret {A} (a : A) h (Q : A -> heap -> Prop) : Q a h -> wp (mret a) h Q.
Proof. intros HQ. by exists a, h. Qed.

Lemma wp_bind {A B} (m : M A) (k : A -> M B) h (R : A -> heap -> Prop)
    (Q : B -> heap -> Prop) :
  wp m h R -> (forall a h', R a h' -> wp (k a) h' Q) -> wp (m ≫= k) h Q.
Proof.
  intros (a & h' & Em & HR) Hk. destruct (Hk a h' HR) as (b & h'' & Ek & HQ).
  exists b, h''. split; [|done]. unfold mbind, M_bind. by rewrite Em.
Qed.

Lemma wp_new v h (Q : loc -> heap -> Prop) :
  (forall l, h !! l = None -> Q l (<[l:=v]> h)) -> wp (new v) h Q.
Proof.
  intros HQ. exists (fresh (dom h)), (<[fresh (dom h):=v]> h).
  split; [done|]. apply HQ, not_elem_of_dom, is_fresh.
Qed.

Lemma wp_deref l v h (Q : DataFrame -> heap -> Prop) :
  h !! l = Some v -> Q v h -> wp (deref l) h Q.
Proof. intros Hl HQ. exists v, h. split; [|done]. unfold deref. by rewrite Hl. Qed.

Lemma wp_deref_flat l f h (Q : frame Cell -> heap -> Prop) :
  h !! l = Some (FlatDF f) -> Q f h -> wp (deref_flat l) h Q.
Proof.
  intros Hl HQ. exists f, h. split; [|done]. unfold deref_flat. by rewrite Hl.
Qed.

Lemma wp_assign l v h (Q : unit -> heap -> Prop) :
  is_Some (h !! l) -> Q tt (<[l:=v]> h) -> wp (assign l v) h Q.
Proof.
  intros [w Hl] HQ. exists tt, (<[l:=v]> h). split; [|done].
  unfold assign. by rewrite Hl.
Qed.

Lemma working_copy_new h0 h l f :
  h0 ⊆ h -> h !! l = None -> working_copy h0 (<[l:=FlatDF f]> h) l f.
Proof.
  intros Hsub Hl. assert (H0 : h0 !! l = None) by by eapply lookup_weaken_None.
  split; [by apply insert_subseteq_r|]. split; [done|]. apply lookup_insert_eq.
Qed.

Lemma working_copy_assign h0 h l f :
  h0 ⊆ h -> h0 !! l = None -> working_copy h0 (<[l:=FlatDF f]> h) l f.
Proof.
  intros Hsub H0. split; [by apply insert_subseteq_r|]. split; [done|].
  apply lookup_insert_eq.
Qed.

(** Reading the working copy. *)
Lemma wp_read {B} h0 h l f (k : frame Cell -> M B) (Q : B -> heap -> Prop) :
  working_copy h0 h l f -> wp (k f) h Q -> wp (deref_flat l ≫= k) h Q.
Proof.
  intros (_ & _ & Hl) Hk.
  apply wp_bind with (R := fun a h' => a = f /\ h' = h).
  - by apply (wp_deref_flat l f).
  - by intros ? ? [-> ->].
Qed.

(** Changing the working copy in place. *)
Lemma wp_update {B} h0 h l f f' (k : unit -> M B) (Q : B -> heap -> Prop) :
  working_copy h0 h l f ->
  (forall h', working_copy h0 h' l f' -> wp (k tt) h' Q) ->
  wp (assign l (FlatDF f') ≫= k) h Q.
Proof.
  intros (Hsub & H0 & Hl) Hk.
  apply wp_bind with (R := fun _ h' => working_copy h0 h' l f').
  - apply wp_assign; [by rewrite Hl|]. by apply working_copy_assign.
  - intros [] h' Hh'. by apply Hk.
Qed.

(** Building a new table from the working copy. *)
Lemma wp_derive {B} h0 h l f f' (k : loc -> M B) (Q : B -> heap -> Prop) :
  working_copy h0 h l f ->
  (forall l' h', working_copy h0 h' l' f' -> wp (k l') h' Q) ->
  wp (new (FlatDF f') ≫= k) h Q.
Proof.
  intros (Hsub & _ & _) Hk.
  apply wp_bind with (R := fun l' h' => working_copy h0 h' l' f').
  - apply wp_new. intros l' Hl'. by apply working_copy_new.
  - done.
Qed.

Section StoreProperties.
Variable toupper_full : N -> list N.
Abbreviation clean := (clean_table_to_stock_schema toupper_full).
Abbreviation clean_st := (clean_table_to_stock_schema_st toupper_full).

(** Run on a store, the normalizer computes [clean_table_to_stock_schema]
    of the table behind its argument, in a new object, and leaves every
    object of the initial store as it was. *)
Lemma clean_st_wp (h : heap) (df : loc) (t : DataFrame) :
  h !! df = Some t ->
  wp (clean_st df) h (fun res h' =>
    h ⊆ h' /\
    match res with
    | None => clean t = None
    | Some l => h !! l = None /\
                exists out, clean t = Some out /\ h' !! l = Some (FlatDF out)
    end).
Proof.
  intros Hdf. unfold clean_table_to_stock_schema_st.
  (* 52 *)
  apply wp_bind with (R := fun a h' => a = t /\ h' = h);
    [by apply (wp_deref df t)|]. intros ? ? [-> ->].
  apply wp_bind with
    (R := fun l h' => h !! l = None /\ h' = <[l:=t]> h);
    [by apply wp_new|]. intros l1 ? [Hl1 ->].
  apply wp_bind with (R := fun a h' => a = t /\ h' = <[l1:=t]> h);
    [by apply (wp_deref l1 t); [apply lookup_insert_eq|]|].
  intros ? ? [-> ->].
  (* 54-55 *)
  apply wp_bind with
    (R := fun _ h' => working_copy h h' l1 (flatten_header t)).
  { destruct t as [f|f]; simpl.
    - apply wp_ret. by apply working_copy_new.
    - apply wp_assign; [by rewrite lookup_insert_eq|].
      rewrite insert_insert_eq. by apply working_copy_new. }
  intros _ h1 H1.
  (* 57-58 *)
  eapply wp_read; [exact H1|].
  eapply wp_update; [exact H1|]. clear h1 H1. intros h1 H1.
  eapply wp_read; [exact H1|].
  eapply wp_derive; [exact H1|]. clear l1 Hl1 h1 H1. intros l1 h1 H1.
  fold (header_stage toupper_full t) in *.
  (* 60-65 *)
  eapply wp_read; [exact H1|].
  apply wp_bind with
    (R := fun l h' => working_copy h h' l
            (promote_header toupper_full (header_stage toupper_full t))).
  { unfold promote_header.
    destruct (rows (header_stage toupper_full t)) as [|r0 rest] eqn:Hrows.
    - by apply wp_ret.
    - cbn zeta.
      destruct (4 <=? hits (_norm toupper_full <$> r0.2)).
      + eapply wp_update; [exact H1|]. clear h1 H1. intros h1 H1.
        eapply wp_read; [exact H1|].
        eapply wp_derive; [exact H1|]. clear l1 h1 H1. intros l1 h1 H1.
        eapply wp_read; [exact H1|].
        apply wp_new. intros l2 Hl2.
        destruct H1 as (Hsub & _ & _). by apply working_copy_new.
      + by apply wp_ret. }
  clear l1 h1 H1. intros l1 h1 H1.
  (* 67-68 *)
  eapply wp_read; [exact H1|].
  eapply wp_update; [exact H1|]. clear h1 H1. intros h1 H1.
  eapply wp_read; [exact H1|].
  eapply wp_derive; [exact H1|]. clear l1 h1 H1. intros l1 h1 H1.
  fold (candidate toupper_full t) in *.
  (* 70-72 *)
  eapply wp_read; [exact H1|]. cbn zeta.
  unfold clean_table_to_stock_schema, select_schema.
  destruct (length (present (candidate toupper_full t)) <? 6).
  { apply wp_ret. split; [apply H1|done]. }
  (* 74 *)
  eapply wp_derive; [exact H1|]. clear l1 h1 H1. intros l1 h1 H1.
  fold (project (candidate toupper_full t)) in *.
  set (p := project (candidate toupper_full t)) in *.
  apply wp_bind with (R := fun a h' => a = FlatDF p /\ h' = h1);
    [by apply (wp_deref l1 (FlatDF p)); [apply H1|]|]. intros ? ? [-> ->].
  eapply wp_derive; [exact H1|]. clear l1 h1 H1. intros l1 h1 H1.
  (* 76-78 *)
  eapply wp_read; [exact H1|].
  apply wp_bind with
    (R := fun l h' => working_copy h h' l (scrip_cleanup toupper_full p)).
  { unfold scrip_cleanup. case_bool_decide.
    - eapply wp_update; [exact H1|]. clear h1 H1. intros h1 H1.
      eapply wp_read; [exact H1|].
      apply wp_new. intros l2 Hl2.
      destruct H1 as (Hsub & _ & _). by apply working_copy_new.
    - by apply wp_ret. }
  clear l1 h1 H1. intros l1 h1 (Hsub & Hl1 & Hout).
  apply wp_ret. split; [done|]. split; [done|]. eauto.
Qed.

(** C9. The table passed to [clean_table_to_stock_schema] is not changed by
    the call: the call returns, every object of the store, the argument
    among them, is the same after it, and the result, when there is one,
    is a new object. *)
Theorem input_not_mutated (h : heap) (df : loc) (t : DataFrame) :
  h !! df = Some t ->
  exists res h',
    clean_st df h = Some (res, h')
    /\ h' !! df = Some t
    /\ (forall l v, h !! l = Some v -> h' !! l = Some v)
    /\ match res with
       | None => clean t = None
       | Some l => h !! l = None /\
                   exists out, clean t = Some out /\ h' !! l = Some (FlatDF out)
       end.
Proof.
  intros Hdf. destruct (clean_st_wp h df t Hdf) as (res & h' & E & Hsub & Hres).
  exists res, h'. split; [done|].
  rewrite map_subseteq_spec in Hsub. auto.
Qed.

End StoreProperties.

(** ** The properties on the sample data *)

(** A table of quotes and a table of another kind: the dataset is the one
    row of the first, under its 8 columns, and it is written to the
    workbook. *)
Example quotes_and_menu :
  save_all_tables_single_sheet toupper_unicode sample_common_dtype
    [sample_quotes; sample_menu] default_out_dir default_excel_name
  = (Some (Frame (T <$> ["SCRIP"; "LDCP"; "OPEN"; "HIGH"; "LOW"; "CURRENT";
                         "CHANGE"; "VOLUME"]%string)
                 [(0%Z, T <$> ["AAA"; "10"; "10"; "11"; "9"; "10.5"; "+0.5";
                               "1000"]%string)]),
     [Mkdir default_out_dir true true;
      ToExcel default_out_dir default_excel_name AllData false
        (Frame (T <$> ["SCRIP"; "LDCP"; "OPEN"; "HIGH"; "LOW"; "CURRENT";
                       "CHANGE"; "VOLUME"]%string)
               [(0%Z, T <$> ["AAA"; "10"; "10"; "11"; "9"; "10.5"; "+0.5";
                             "1000"]%string)])]).
Proof. vm_compute. reflexivity. Qed.

Lemma accepted_table_shape_witness :
  clean_table_to_stock_schema toupper_unicode sample_repeated
  = Some sample_repeated_cleaned
  /\ 6 <= length (columns sample_repeated_cleaned) <= 8
  /\ NoDup (columns sample_repeated_cleaned).
Proof.
  assert (H : clean_table_to_stock_schema toupper_unicode sample_repeated
              = Some sample_repeated_cleaned) by (vm_compute; reflexivity).
  destruct (accepted_table_shape toupper_unicode sample_repeated
              sample_repeated_cleaned H) as (Hlen & _ & _ & Hnd & _).
  split; [exact H|]. split; [exact Hlen|exact Hnd].
Defined.

Lemma header_row_promoted_witness :
  promote_header toupper_unicode (header_stage toupper_unicode sample_shifted)
  = Frame
      (T <$> ["SCRIP"; "LDCP"; "OPEN"; "HIGH"; "LOW"; "CURRENT"; "CHANGE";
              "VOLUME"]%string)
      [(0%Z, T <$> ["AAA"; "10"; "10"; "11"; "9"; "10.5"; "+0.5"; "1000"]%string)]
  /\ forall out,
       clean_table_to_stock_schema toupper_unicode sample_shifted = Some out ->
       len out <= 1.
Proof.
  assert (H : 4 <= hits (_norm toupper_unicode <$>
                keep ((fun c => negb (Py.startswith UNNAMED
                                        (_norm toupper_unicode c)))
                        <$> columns (flatten_header sample_shifted))
                     (T <$> ["Scrip"; "LDCP"; "Open"; "High"; "Low"; "Current";
                             "Change"; "Volume"]%string)))
    by (vm_compute; lia).
  destruct (header_row_promoted toupper_unicode sample_shifted
              (0%Z, T <$> ["Scrip"; "LDCP"; "Open"; "High"; "Low"; "Current";
                           "Change"; "Volume"]%string)
              [(1%Z, T <$> ["AAA"; "10"; "10"; "11"; "9"; "10.5"; "+0.5";
                            "1000"]%string)]
              eq_refl H) as (E & _ & Hlen).
  split; [|exact Hlen]. rewrite E. vm_compute. reflexivity.
Defined.

(** C3 as stated fails: the first row of this table holds 4 canonical names,
    one of them under the unnamed column; without that cell only 3 are
    left, the labels are not replaced, and the row stays in the result. *)
Lemma header_row_under_unnamed_column_stays :
  rows (flatten_header sample_unnamed)
  = [(0%Z, T <$> ["SCRIP"; "LDCP"; "OPEN"; "HIGH"; "-"; "-"; "-"; "-"]%string);
     (1%Z, T <$> ["AAA"; "10"; "10"; "11"; "9"; "10.5"; "+0.5"; "1000"]%string)]
  /\ hits (_norm toupper_unicode
             <$> (T <$> ["SCRIP"; "LDCP"; "OPEN"; "HIGH"; "-"; "-"; "-"; "-"]%string))
     = 4
  /\ columns (promote_header toupper_unicode
                (header_stage toupper_unicode sample_unnamed))
     = T <$> ["LDCP"; "OPEN"; "HIGH"; "LOW"; "CURRENT"; "CHANGE"; "VOLUME"]%string
  /\ clean_table_to_stock_schema toupper_unicode sample_unnamed
     = Some (Frame
         (T <$> ["LDCP"; "OPEN"; "HIGH"; "LOW"; "CURRENT"; "CHANGE";
                 "VOLUME"]%string)
         [(0%Z, T <$> ["LDCP"; "OPEN"; "HIGH"; "-"; "-"; "-"; "-"]%string);
          (1%Z, T <$> ["10"; "10"; "11"; "9"; "10.5"; "+0.5"; "1000"]%string)]).
Proof. repeat split; vm_compute; reflexivity. Qed.

Lemma nothing_accepted_nothing_saved_witness :
  save_all_tables_single_sheet toupper_unicode sample_common_dtype
    [sample_menu] default_out_dir default_excel_name
  = (None, []).
Proof.
  apply (nothing_accepted_nothing_saved toupper_unicode sample_common_dtype
           [sample_menu]).
  right. intros t Ht. apply list_elem_of_singleton in Ht. subst t.
  vm_compute. reflexivity.
Defined.

(** A table of six columns, a table of another kind and a table of eight
    columns with numbers: the second row of the dataset is the row of the
    third table, and its whole number under LDCP, a column that the first
    table lacks, has become a float. *)
Lemma accepted_tables_concatenated_witness :
  exists combined,
    (save_all_tables_single_sheet toupper_unicode sample_common_dtype
       [sample_six; sample_menu; sample_numbers]
       default_out_dir default_excel_name).1 = Some combined
    /\ len combined = 2
    /\ columns combined
       = T <$> ["SCRIP"; "OPEN"; "HIGH"; "LOW"; "CURRENT"; "VOLUME"; "LDCP";
                "CHANGE"]%string
    /\ rows combined
       = [(0%Z, (T <$> ["CCC"; "30"; "31"; "29"; "30.5"; "3000"]%string)
                ++ [NaN; NaN]);
          (1%Z, T "DDD"
                :: (Obj <$> (Py.lit <$> ["40"; "41"; "39"; "40.5"; "4000";
                                         "40.0"; "0.5"]%string)))].
Proof.
  assert (H : exists t, t ∈ [sample_six; sample_menu; sample_numbers]
                        /\ is_Some (clean_table_to_stock_schema
                                      toupper_unicode t)).
  { exists sample_six. split; [left|]. vm_compute. eauto. }
  destruct (accepted_tables_concatenated toupper_unicode sample_common_dtype
              [sample_six; sample_menu; sample_numbers]
              default_out_dir default_excel_name H)
    as (combined & E & Hlen & _).
  exists combined. split; [exact E|]. split.
  - rewrite Hlen. vm_compute. reflexivity.
  - vm_compute in E. injection E as <-. split; reflexivity.
Defined.


(** The table of quotes under a header of two levels gives what the table
    of quotes gives. *)
Lemma flattening_commutes_witness :
  clean_table_to_stock_schema toupper_unicode (MultiDF sample_two_levels)
  = clean_table_to_stock_schema toupper_unicode sample_quotes
  /\ clean_table_to_stock_schema toupper_unicode (MultiDF sample_two_levels)
     = Some (Frame
         (T <$> ["SCRIP"; "LDCP"; "OPEN"; "HIGH"; "LOW"; "CURRENT"; "CHANGE";
                 "VOLUME"]%string)
         [(0%Z, T <$> ["AAA"; "10"; "10"; "11"; "9"; "10.5"; "+0.5";
                       "1000"]%string)]).
Proof.
  assert (E : clean_table_to_stock_schema toupper_unicode
                (MultiDF sample_two_levels)
              = clean_table_to_stock_schema toupper_unicode sample_quotes).
  { apply (flattening_commutes toupper_unicode sample_two_levels
             (Frame (T <$> ["SCRIP"; "LDCP"; "OPEN"; "HIGH"; "LOW"; "CURRENT";
                            "CHANGE"; "VOLUME"]%string)
                    [(0%Z, T <$> ["AAA"; "10"; "10"; "11"; "9"; "10.5"; "+0.5";
                                  "1000"]%string)])).
    - repeat constructor; by exists [T "Market Summary"].
    - reflexivity. }
  split; [exact E|]. rewrite E. vm_compute. reflexivity.
Defined.

Lemma input_not_mutated_witness :
  exists res h',
    clean_table_to_stock_schema_st toupper_unicode 1%positive
      {[1%positive := sample_repeated]} = Some (res, h')
    /\ h' !! 1%positive = Some sample_repeated.
Proof.
  destruct (input_not_mutated toupper_unicode {[1%positive := sample_repeated]}
              1%positive sample_repeated (lookup_singleton_eq _ _))
    as (res & h' & E & Hdf & _).
  exists res, h'. split; [exact E|exact Hdf].
Defined.

Lemma zero_row_tables_are_saved_witness :
  exists combined,
    save_all_tables_single_sheet toupper_unicode sample_common_dtype
      [sample_empty; sample_empty] default_out_dir default_excel_name
    = (Some combined,
       [Mkdir default_out_dir true true;
        ToExcel default_out_dir default_excel_name AllData false combined])
    /\ rows combined = [].
Proof.
  destruct (zero_row_tables_are_saved toupper_unicode sample_common_dtype)
    as [Hone Hall].
  apply Hall; [done|].
  intros t Ht. assert (t = sample_empty) as ->.
  { apply elem_of_cons in Ht as [->|Ht]; [done|].
    by apply list_elem_of_singleton in Ht. }
  apply Hone; [reflexivity|]. vm_compute. lia.
Defined.

(** * Further properties *)

(** ** Normalization of labels *)

Lemma lstrip_spaces ws s :
  Forall (fun c => Py.isspace c = true) ws -> Py.lstrip (ws ++ s) = Py.lstrip s.
Proof.
  induction 1 as [|c ws Hc _ IH]; simpl; [done|]. by rewrite Hc.
Qed.

Lemma rstrip_spaces ws s :
  Forall (fun c => Py.isspace c = true) ws -> Py.rstrip (s ++ ws) = Py.rstrip s.
Proof.
  intros H. unfold Py.rstrip. rewrite rev_app_distr, lstrip_spaces; [done|].
  by apply Forall_rev.
Qed.

Lemma strip_spaces_right ws s :
  Forall (fun c => Py.isspace c = true) ws -> Py.strip (s ++ ws) = Py.strip s.
Proof.
  intros H. induction s as [|c s IH].
  - unfold Py.strip. rewrite app_nil_l.
    rewrite <- (app_nil_r ws), lstrip_spaces by done. done.
  - unfold Py.strip in *. simpl. destruct (Py.isspace c); [done|].
    by apply (rstrip_spaces ws (c :: s)).
Qed.

Lemma strip_spaces ws1 ws2 s :
  Forall (fun c => Py.isspace c = true) ws1 ->
  Forall (fun c => Py.isspace c = true) ws2 ->
  Py.strip (ws1 ++ s ++ ws2) = Py.strip s.
Proof.
  intros H1 H2. rewrite <- (strip_spaces_right ws2 s H2).
  unfold Py.strip. by rewrite lstrip_spaces.
Qed.

(** A string has one trimmed form, the one that [str.strip] returns. *)
Lemma trimmed_of_strip s t : trimmed_of s t <-> t = Py.strip s.
Proof.
  split; [|intros ->; apply strip_trimmed].
  intros (pre & suf & -> & Hpre & Hsuf & Hhead & Hlast).
  by rewrite (strip_spaces pre suf t Hpre Hsuf), strip_fixed.
Qed.

Lemma replace_spaces ws :
  Forall (fun c => Py.isspace c = true) ws ->
  Forall (fun c => Py.isspace c = true) (Py.replace 160 32 ws).
Proof.
  induction 1 as [|c ws Hc _ IH]; simpl; constructor; [|done].
  by destruct (N.eqb_spec c 160).
Qed.

Section NormalizationMore.
Variable toupper_full : N -> list N.

(** X1. White space around a label or a cell, non-breaking spaces among
    it, has no influence on its normal form. *)
Theorem norm_ignores_surrounding_space (ws1 ws2 s : Py.str) :
  Forall (fun c => Py.isspace c = true) ws1 ->
  Forall (fun c => Py.isspace c = true) ws2 ->
  _norm toupper_full (Text (ws1 ++ s ++ ws2)) = _norm toupper_full (Text s).
Proof.
  intros H1 H2. unfold _norm. cbn [str]. f_equal.
  unfold Py.replace. rewrite !map_app.
  apply strip_spaces; by apply replace_spaces.
Qed.

End NormalizationMore.

(** ** The normalizer *)

Lemma get_loc_of_lookup labels i c :
  NoDup labels -> labels !! i = Some c -> get_loc c labels = i.
Proof.
  intros Hnd. revert i. induction Hnd as [|a labels Ha Hnd IH]; intros i.
  - by rewrite lookup_nil.
  - destruct i as [|i]; simpl.
    + intros [= ->]. by rewrite decide_True.
    + intros Hi. rewrite decide_False.
      * f_equal. by apply IH.
      * intros ->. apply Ha. by eapply list_elem_of_lookup_2.
Qed.

Lemma get_loc_inj labels c c' :
  c ∈ labels -> c' ∈ labels -> get_loc c labels = get_loc c' labels -> c = c'.
Proof.
  intros Hc%get_loc_lookup Hc'%get_loc_lookup E. rewrite E in Hc. congruence.
Qed.

(** Selecting every column by its label gives the row back. *)
Lemma select_all_columns labels cells :
  NoDup labels -> length cells = length labels ->
  (fun c => cell_at labels c cells) <$> labels = cells.
Proof.
  intros Hnd Hlen. apply list_eq. intros i. rewrite list_lookup_fmap.
  destruct (labels !! i) as [c|] eqn:E; simpl.
  - unfold cell_at. rewrite (get_loc_of_lookup _ _ _ Hnd E), nth_lookup.
    destruct (lookup_lt_is_Some_2 cells i) as [v ->]; [|done].
    rewrite Hlen. by eapply lookup_lt_Some.
  - symmetry. apply lookup_ge_None. rewrite Hlen. by apply lookup_ge_None.
Qed.

Lemma keep_all {A} (mask : list bool) (l : list A) :
  Forall (fun b => b = true) mask -> length l <= length mask -> keep mask l = l.
Proof.
  intros H. revert l. induction H as [|b mask -> _ IH]; intros [|x l]; simpl;
    try done; try lia.
  intros Hl. f_equal. apply IH. lia.
Qed.

Lemma not_duplicated_from seen labels :
  NoDup labels -> (forall c, c ∈ labels -> c ∉ seen) ->
  Forall (fun b => b = true) (negb <$> duplicated_from seen labels).
Proof.
  intros Hnd. revert seen. induction Hnd as [|a labels Ha Hnd IH]; intros seen Hs.
  - constructor.
  - simpl. constructor.
    + rewrite bool_decide_eq_false_2; [done|]. apply Hs. by left.
    + apply IH. intros c Hc [->|Hin]%elem_of_cons; [done|].
      apply (Hs c); [by right|done].
Qed.

Lemma fmap_fixed {A} (g : A -> A) (l : list A) :
  (forall x, x ∈ l -> g x = x) -> g <$> l = l.
Proof.
  induction l as [|x l IH]; intros H; simpl; [done|].
  rewrite (H x) by left. f_equal. apply IH. intros y Hy. apply H. by right.
Qed.

Lemma filter_agree {A} (P Q : A -> Prop)
    `{!forall x, Decision (P x)} `{!forall x, Decision (Q x)} (l : list A) :
  (forall x, x ∈ l -> P x <-> Q x) -> filter P l = filter Q l.
Proof.
  intros HPQ. rewrite <- (list_fmap_id l) at 1.
  rewrite (filter_fmap_commute id P Q l HPQ). apply list_fmap_id.
Qed.

Lemma filter_all {A} (P : A -> Prop) `{!forall x, Decision (P x)} (l : list A) :
  (forall x, x ∈ l -> P x) -> filter P l = l.
Proof.
  induction l as [|x l IH]; intros HP; [done|].
  rewrite filter_cons_True by (apply HP; left).
  f_equal. apply IH. intros y Hy. apply HP. by right.
Qed.

(** The first of the columns that bear a label keeps its cells. *)
Lemma keep_first_occurrence seen labels cells c :
  length cells = length labels -> c ∈ labels -> c ∉ seen ->
  cell_at (keep (negb <$> duplicated_from seen labels) labels) c
          (keep (negb <$> duplicated_from seen labels) cells)
  = cell_at labels c cells.
Proof.
  unfold cell_at. revert seen cells.
  induction labels as [|a labels IH]; intros seen [|x cells]; simpl; try done.
  intros [= Hlen] Hc Hs. case_bool_decide as Ha; simpl.
    + assert (a <> c) by (intros ->; done).
      rewrite decide_False by done.
      apply elem_of_cons in Hc as [->|Hc]; [done|].
      apply IH; [done|done|]. intros [->|?]%elem_of_cons; done.
    + destruct (decide (a = c)) as [->|Hne]; [done|]. simpl.
      apply elem_of_cons in Hc as [->|Hc]; [done|].
      apply IH; [done|done|]. intros [->|?]%elem_of_cons; done.
Qed.

(** X3. Line 68 keeps, of the columns that bear the same label, the first:
    every row keeps its index label and, under every label of the table,
    the cell of the first column so labelled. *)
Theorem first_of_duplicated_columns_kept (f : frame Cell) (j : nat) (r : Row) :
  rows f !! j = Some r ->
  length r.2 = length (columns f) ->
  exists r',
    rows (drop_duplicated f) !! j = Some r'
    /\ r'.1 = r.1
    /\ NoDup (columns (drop_duplicated f))
    /\ forall c, c ∈ columns f ->
         c ∈ columns (drop_duplicated f)
         /\ cell_at (columns (drop_duplicated f)) c r'.2
            = cell_at (columns f) c r.2.
Proof.
  intros Hj Hlen.
  exists (r.1, keep (negb <$> duplicated (columns f)) r.2).
  split; [|split; [done|split; [apply drop_duplicated_NoDup|]]].
  - unfold drop_duplicated, loc_columns. cbn [rows].
    by rewrite list_lookup_fmap, Hj.
  - intros c Hc. split; [by apply drop_duplicated_columns|].
    unfold drop_duplicated, loc_columns, duplicated. cbn [columns snd].
    apply keep_first_occurrence; [done|done|]. apply not_elem_of_nil.
Qed.

Section NormalizerMore.
Variable toupper_full : N -> list N.
Abbreviation clean := (clean_table_to_stock_schema toupper_full).

Lemma len_promote_header f : len (promote_header toupper_full f) <= len f.
Proof.
  unfold promote_header. destruct (rows f) as [|r0 rest] eqn:E; [done|].
  cbn zeta. destruct (4 <=? hits (_norm toupper_full <$> r0.2)); [|done].
  unfold len, reset_index, iloc_from, set_columns. cbn [rows].
  rewrite length_imap, E. simpl. rewrite drop_0. lia.
Qed.

(** X2. The normalizer adds no row: an accepted table has at most as many
    rows as the table it comes from. *)
Theorem no_row_added (df : DataFrame) (out : frame Cell) :
  clean df = Some out -> len out <= len (flatten_header df).
Proof.
  unfold clean_table_to_stock_schema. intros H%len_select_schema.
  etrans; [exact H|]. unfold candidate. rewrite len_drop_duplicated.
  etrans; [apply (len_promote_header (header_stage toupper_full df))|].
  unfold len. by rewrite header_stage_rows, length_fmap.
Qed.

Lemma project_cell f n cells :
  Text n ∈ columns (project f) ->
  cell_at (columns (project f)) (Text n)
          ((fun c => cell_at (columns f) c cells) <$> columns (project f))
  = cell_at (columns f) (Text n) cells.
Proof.
  intros Hn. unfold cell_at at 1.
  by rewrite nth_lookup, list_lookup_fmap, (get_loc_lookup _ _ Hn).
Qed.

(** X4. Lines 70-78 change no value outside the SCRIP column: every row of
    an accepted table comes from a row of the table of lines 52-68, with
    its index label and, under every column but SCRIP, its cell. *)
Theorem quote_values_untouched (df : DataFrame) (out : frame Cell) (r : Row) :
  clean df = Some out ->
  r ∈ rows out ->
  exists r0,
    r0 ∈ rows (candidate toupper_full df)
    /\ r.1 = r0.1
    /\ forall n, Text n ∈ columns out -> n <> SCRIP ->
         cell_at (columns out) (Text n) r.2
         = cell_at (columns (candidate toupper_full df)) (Text n) r0.2.
Proof.
  unfold clean_table_to_stock_schema. intros [_ ->]%select_schema_Some.
  set (f := candidate toupper_full df).
  rewrite scrip_cleanup_columns. unfold scrip_cleanup.
  case_bool_decide as Hscrip.
  - unfold drop_header_rows, strip_scrip. cbn [rows].
    intros [_ (rp & -> & Hrp)%list_elem_of_fmap]%list_elem_of_filter.
    unfold project, getitem in Hrp. cbn [rows] in Hrp.
    apply list_elem_of_fmap in Hrp as (r0 & -> & Hr0).
    exists r0. split; [done|]. split; [done|]. intros n Hn Hne. cbn [snd].
    rewrite <- (project_cell f n r0.2 Hn). unfold cell_at.
    rewrite !nth_lookup, list_lookup_alter_ne; [done|].
    intros E. apply Hne. apply get_loc_inj in E; [|done|done]. by injection E.
  - unfold project at 1, getitem. cbn [rows].
    intros (r0 & -> & Hr0)%list_elem_of_fmap.
    exists r0. split; [done|]. split; [done|]. intros n Hn _. cbn [snd].
    by apply project_cell.
Qed.

End NormalizerMore.

Lemma frame_eta {L} (f : frame L) : Frame (columns f) (rows f) = f.
Proof. by destruct f. Qed.

Lemma alter_twice {A} (h : A -> A) i (l : list A) :
  (forall v, h (h v) = h v) -> alter h i (alter h i l) = alter h i l.
Proof.
  intros Hh. apply list_eq. intros j. rewrite !list_lookup_alter.
  destruct (decide (i = j)) as [->|]; [|done].
  rewrite decide_True by done.
  destruct (l !! j); simpl; [|done]. by rewrite Hh.
Qed.

Lemma length_duplicated_from seen labels :
  length (duplicated_from seen labels) = length labels.
Proof.
  revert seen. induction labels as [|a l IH]; intros seen; simpl; [done|].
  by rewrite IH.
Qed.

Lemma nodup_labels_kept f :
  NoDup (columns f) ->
  (forall r, r ∈ rows f -> length r.2 = length (columns f)) ->
  drop_duplicated f = f.
Proof.
  intros Hnd Hw.
  assert (Hmask : Forall (fun b => b = true) (negb <$> duplicated (columns f))).
  { apply not_duplicated_from; [done|]. intros c _. apply not_elem_of_nil. }
  assert (Hlen : length (negb <$> duplicated (columns f)) = length (columns f)).
  { rewrite length_fmap. apply length_duplicated_from. }
  unfold drop_duplicated, loc_columns.
  rewrite (keep_all _ (columns f) Hmask) by lia.
  rewrite (fmap_fixed _ (rows f)); [apply frame_eta|].
  intros [i cells] Hr. cbn [fst snd]. f_equal.
  apply keep_all; [done|]. rewrite Hlen.
  pose proof (Hw _ Hr) as Hwr. cbn [snd] in Hwr. lia.
Qed.

Section Idempotence.
Variable toupper_full : N -> list N.
Abbreviation clean := (clean_table_to_stock_schema toupper_full).

Lemma canonical_labels_norm f :
  (forall c, c ∈ columns f -> exists n, n ∈ CANON /\ c = Text n) ->
  norm_columns toupper_full f = f.
Proof.
  intros Hc. unfold norm_columns, set_columns.
  rewrite fmap_fixed; [apply frame_eta|].
  intros c (n & Hn & ->)%Hc. f_equal.
  by apply (canonical_fixed toupper_full).
Qed.

Lemma canonical_labels_named f :
  (forall c, c ∈ columns f -> exists n, n ∈ CANON /\ c = Text n) ->
  (forall r, r ∈ rows f -> length r.2 = length (columns f)) ->
  drop_unnamed f = f.
Proof.
  intros Hc Hw.
  set (mask := (fun c => negb (Py.startswith UNNAMED (str c))) <$> columns f).
  assert (Hmask : Forall (fun b => b = true) mask).
  { apply Forall_fmap, Forall_forall. intros c (n & Hn & ->)%Hc.
    cbn [str compose]. unfold compose. cbn [str].
    by rewrite (proj2 (canonical_fixed toupper_full n Hn)). }
  assert (Hlen : length mask = length (columns f)) by apply length_fmap.
  unfold drop_unnamed, loc_columns. fold mask.
  rewrite (keep_all _ (columns f) Hmask) by lia.
  rewrite (fmap_fixed _ (rows f)); [apply frame_eta|].
  intros [i cells] Hr. cbn [fst snd]. f_equal.
  apply keep_all; [done|]. rewrite Hlen.
  pose proof (Hw _ Hr) as Hwr. cbn [snd] in Hwr. lia.
Qed.

Lemma present_of_present f out :
  columns out = Text <$> present f -> present out = present f.
Proof.
  intros E. unfold present at 1. rewrite E. unfold present at 2.
  apply filter_agree. intros n Hn. split.
  - intros (m & [= ->] & [Hm _]%list_elem_of_filter)%list_elem_of_fmap. done.
  - intros Hin. apply list_elem_of_fmap. exists n. split; [done|].
    by apply list_elem_of_filter.
Qed.

Lemma scrip_cleanup_idempotent p :
  scrip_cleanup toupper_full (scrip_cleanup toupper_full p)
  = scrip_cleanup toupper_full p.
Proof.
  unfold scrip_cleanup at 1. rewrite scrip_cleanup_columns.
  case_bool_decide as Hs; [|done].
  unfold scrip_cleanup. rewrite bool_decide_eq_true_2 by done.
  set (i := get_loc (Text SCRIP) (columns p)).
  set (g := fun r : Row => (r.1, alter (fun v => Text (Py.strip (str v))) i r.2)).
  assert (Hg : forall r, g (g r) = g r).
  { intros r. unfold g. cbn [fst snd]. f_equal. apply alter_twice.
    intros v. cbn [str]. by rewrite strip_idempotent. }
  set (q := drop_header_rows toupper_full (strip_scrip p)).
  assert (Hcq : columns q = columns p) by reflexivity.
  assert (Hrq : forall r, r ∈ rows q -> g r = r).
  { intros r [_ Hr]%list_elem_of_filter.
    apply list_elem_of_fmap in Hr as (r0 & -> & _). apply Hg. }
  assert (E : strip_scrip q = q).
  { unfold strip_scrip. rewrite Hcq. fold i. fold g.
    rewrite (fmap_fixed g (rows q) Hrq), <- Hcq. apply frame_eta. }
  rewrite E. unfold drop_header_rows. fold q. rewrite Hcq.
  rewrite filter_all; [rewrite <- Hcq; apply frame_eta|].
  intros r [Hr _]%list_elem_of_filter. exact Hr.
Qed.

(** X5. An accepted table is a fixed point of the normalizer, unless its
    first row looks like a header: when the first row, if there is one,
    holds fewer than 4 canonical names after normalization, normalizing
    the table again returns it unchanged. *)
Theorem clean_accepted_again (df : DataFrame) (out : frame Cell) :
  clean df = Some out ->
  (forall r0 rest, rows out = r0 :: rest ->
     hits (_norm toupper_full <$> r0.2) < 4) ->
  clean (FlatDF out) = Some out.
Proof.
  intros Hout Hfirst.
  apply select_schema_Some in Hout as [Hlen Eout].
  set (f := candidate toupper_full df) in *.
  assert (Ecols : columns out = Text <$> present f).
  { by rewrite Eout, scrip_cleanup_columns, project_columns. }
  assert (Hcanon : forall c, c ∈ columns out -> exists n, n ∈ CANON /\ c = Text n).
  { intros c. rewrite Ecols. intros (n & -> & Hn)%list_elem_of_fmap.
    exists n. split; [|done]. by apply (elem_of_sublist _ _ _ Hn (present_sublist f)). }
  assert (Hnd : NoDup (columns out)).
  { rewrite Ecols. apply (NoDup_fmap_2 Text), present_NoDup. }
  assert (Hw : forall r, r ∈ rows out -> length r.2 = length (columns out)).
  { intros r Hr. rewrite Eout in Hr. rewrite Eout, scrip_cleanup_columns.
    apply (scrip_cleanup_row_width toupper_full (project f)); [|done].
    apply project_row_width. }
  assert (Hpromote : promote_header toupper_full out = out).
  { unfold promote_header. destruct (rows out) as [|r0 rest] eqn:E; [done|].
    cbn zeta. specialize (Hfirst r0 rest eq_refl).
    destruct (Nat.leb_spec 4 (hits (_norm toupper_full <$> r0.2))); [lia|done]. }
  assert (Hcand : candidate toupper_full (FlatDF out) = out).
  { unfold candidate, header_stage. cbn [flatten_header].
    rewrite (canonical_labels_norm out Hcanon).
    rewrite (canonical_labels_named out Hcanon Hw).
    rewrite Hpromote, (canonical_labels_norm out Hcanon).
    by apply nodup_labels_kept. }
  unfold clean_table_to_stock_schema. rewrite Hcand. unfold select_schema.
  rewrite (present_of_present f out Ecols).
  destruct (Nat.ltb_spec (length (present f)) 6); [lia|]. f_equal.
  assert (Eproj : project out = out).
  { unfold project, getitem. rewrite (present_of_present f out Ecols), <- Ecols.
    rewrite (fmap_fixed _ (rows out)); [apply frame_eta|].
    intros [i cells] Hr. cbn [fst snd]. f_equal.
    apply select_all_columns; [done|]. by apply (Hw _ Hr). }
  rewrite Eproj, Eout. apply scrip_cleanup_idempotent.
Qed.

End Idempotence.

(** ** The aggregator *)

Lemma NoDup_length_le {A} (l k : list A) :
  NoDup l -> (forall x, x ∈ l -> x ∈ k) -> length l <= length k.
Proof. intros Hnd Hsub. by apply submseteq_length, NoDup_submseteq. Qed.

Lemma union_columns_single f :
  NoDup (columns f) -> union_columns [f] = columns f.
Proof.
  intros Hnd. unfold union_columns. cbn [flat_map]. rewrite app_nil_r.
  apply keep_all.
  - apply not_duplicated_from; [done|]. intros c _. apply not_elem_of_nil.
  - unfold duplicated. by rewrite length_fmap, length_duplicated_from.
Qed.

Lemma concat_row_width to_common_dtype frames r :
  r ∈ rows (concat to_common_dtype frames) ->
  length r.2 = length (columns (concat to_common_dtype frames)).
Proof.
  unfold concat, reset_index. cbn [rows columns].
  intros (i & r0 & -> & Hr0)%elem_of_lookup_imap. cbn [snd].
  apply list_elem_of_lookup_2, elem_of_stack in Hr0
    as (k & f & r1 & _ & _ & ->).
  unfold align. cbn [snd]. apply length_fmap.
Qed.

Section AggregatorMore.
Variable toupper_full : N -> list N.
Variable to_common_dtype : list (frame Cell) -> nat -> Cell -> Py.str -> Py.str.
Abbreviation clean := (clean_table_to_stock_schema toupper_full).
Abbreviation save :=
  (save_all_tables_single_sheet toupper_full to_common_dtype).

Lemma save_rejected tables out_dir excel_name :
  omap clean tables = [] -> save tables out_dir excel_name = (None, []).
Proof.
  intros E. unfold save_all_tables_single_sheet.
  destruct tables as [|t tables]; [done|]. by rewrite clean_all_cleaned, E.
Qed.

(** The result depends on the accepted tables only. *)
Lemma save_same_accepted tables tables' out_dir excel_name :
  omap clean tables = omap clean tables' ->
  save tables out_dir excel_name = save tables' out_dir excel_name.
Proof.
  intros E. destruct (omap clean tables) as [|f l] eqn:Ht.
  - by rewrite !save_rejected.
  - rewrite !save_accepted; [by rewrite Ht, E| |]; congruence.
Qed.

(** X6. A rejected table has no influence: with or without it in the list,
    the dataset returned and the calls made to the file system are the
    same. *)
Theorem rejected_table_ignored (before after : list DataFrame) (t : DataFrame)
    (out_dir excel_name : Py.str) :
  clean t = None ->
  save (before ++ t :: after) out_dir excel_name
  = save (before ++ after) out_dir excel_name.
Proof.
  intros Ht. apply save_same_accepted.
  rewrite !omap_app. f_equal. simpl. by rewrite Ht.
Qed.

Lemma clean_all_count tables cleaned skipped :
  let '(cleaned', skipped') :=
    foldl (fun '(cleaned, skipped) t =>
             match clean t with
             | None => (cleaned, S skipped)
             | Some fixed => (cleaned ++ [fixed], skipped)
             end)
          (cleaned, skipped) tables in
  length cleaned' + skipped' = length cleaned + skipped + length tables
  /\ skipped' = skipped + length (filter (fun t => clean t = None) tables).
Proof.
  revert cleaned skipped.
  induction tables as [|t tables IH]; intros cleaned skipped.
  - simpl. lia.
  - cbn [foldl]. rewrite filter_cons.
    destruct (clean t) as [fixed|] eqn:E.
    + specialize (IH (cleaned ++ [fixed]) skipped).
      destruct (foldl _ _ tables) as [c s]. rewrite length_app in IH.
      rewrite decide_False by done. simpl in *. lia.
    + specialize (IH cleaned (S skipped)).
      destruct (foldl _ _ tables) as [c s].
      rewrite decide_True by done. simpl in *. lia.
Qed.

(** X7. The loop of lines 94-99 sorts every table: the accepted tables and
    the skipped ones together are as many as the tables given, and the
    counter of skipped tables is the number of tables that the normalizer
    rejects. *)
Theorem every_table_accepted_or_skipped (tables : list DataFrame) :
  length (clean_all toupper_full tables).1 + (clean_all toupper_full tables).2
  = length tables
  /\ (clean_all toupper_full tables).2
     = length (filter (fun t => clean t = None) tables).
Proof.
  pose proof (clean_all_count tables [] 0) as H. unfold clean_all.
  destruct (foldl _ _ tables) as [c s]. simpl in *. lia.
Qed.

Lemma accepted_columns df out :
  clean df = Some out ->
  6 <= length (columns out) /\ NoDup (columns out)
  /\ (forall c, c ∈ columns out -> c ∈ Text <$> CANON)
  /\ (forall r, r ∈ rows out -> length r.2 = length (columns out)).
Proof.
  intros [Hlen ->]%select_schema_Some.
  set (f := candidate toupper_full df).
  rewrite scrip_cleanup_columns, project_columns, length_fmap.
  split; [done|]. split; [apply (NoDup_fmap_2 Text), present_NoDup|]. split.
  - intros c (n & -> & Hn)%list_elem_of_fmap. apply list_elem_of_fmap.
    exists n. split; [done|]. by apply (elem_of_sublist _ _ _ Hn (present_sublist f)).
  - intros r Hr. rewrite <- (length_fmap Text), <- project_columns.
    apply (scrip_cleanup_row_width toupper_full (project f)); [|done].
    apply project_row_width.
Qed.

(** X8. The dataset returned has the shape of a stock table: between 6 and
    8 columns, all canonical names and all different, and a cell for every
    column in every row; and it is the dataset written, under the sheet
    name AllData and without the index, after the directory is made. *)
Theorem dataset_shape (tables : list DataFrame) (out_dir excel_name : Py.str)
    (df : frame Cell) (calls : list FsCall) :
  save tables out_dir excel_name = (Some df, calls) ->
  6 <= length (columns df) <= 8
  /\ NoDup (columns df)
  /\ (forall c, c ∈ columns df -> exists n, n ∈ CANON /\ c = Text n)
  /\ (forall r, r ∈ rows df -> length r.2 = length (columns df))
  /\ calls = [Mkdir out_dir true true;
              ToExcel out_dir excel_name AllData false df].
Proof.
  destruct (omap clean tables) as [|f l] eqn:Hacc.
  { by rewrite save_rejected. }
  rewrite save_accepted by congruence. intros [= <- <-]. rewrite Hacc.
  assert (Hcanon : forall c, c ∈ columns (concat to_common_dtype (f :: l)) ->
                             c ∈ Text <$> CANON).
  { intros c (g & Hg & Hc)%union_columns_elem.
    rewrite <- Hacc in Hg. apply list_elem_of_omap in Hg as (t & _ & Ht).
    by apply (accepted_columns t g Ht). }
  assert (Hf : exists t, clean t = Some f).
  { assert (Hin : f ∈ omap clean tables) by (rewrite Hacc; left).
    apply list_elem_of_omap in Hin as (t & _ & Ht). eauto. }
  destruct Hf as (t & Ht). destruct (accepted_columns t f Ht) as (H6 & Hnd & _).
  repeat split.
  - etrans; [exact H6|]. apply NoDup_length_le; [done|].
    intros c Hc. apply union_columns_elem. exists f. split; [left|done].
  - rewrite <- CANON_length, <- (length_fmap Text).
    apply NoDup_length_le; [apply union_columns_NoDup|done].
  - apply union_columns_NoDup.
  - intros c (n & -> & Hn)%Hcanon%list_elem_of_fmap. eauto.
  - apply concat_row_width.
Qed.

(** X9. When one table only is accepted, the dataset is that table with its
    rows renumbered. *)
Theorem single_accepted_table (tables : list DataFrame)
    (out_dir excel_name : Py.str) (out : frame Cell) :
  omap clean tables = [out] ->
  (save tables out_dir excel_name).1 = Some (reset_index out).
Proof.
  intros Hacc. rewrite save_accepted by (rewrite Hacc; done).
  rewrite Hacc. cbn [fst]. f_equal.
  assert (Hin : out ∈ omap clean tables) by (rewrite Hacc; left).
  apply list_elem_of_omap in Hin as (t & _ & Ht).
  destruct (accepted_columns t out Ht) as (_ & Hnd & _ & Hw).
  unfold concat. rewrite (union_columns_single out Hnd).
  cbn [stack]. rewrite app_nil_r. unfold reset_index. cbn [columns rows].
  f_equal. f_equal.
  apply fmap_fixed. intros [i cells] Hr. unfold align. cbn [fst snd].
  f_equal. etrans; [|apply (select_all_columns (columns out) cells Hnd)].
  - apply list_fmap_ext. intros j c Hc. rewrite unify_single.
    rewrite bool_decide_eq_true_2; [done|]. by eapply list_elem_of_lookup_2.
  - apply (Hw _ Hr).
Qed.

End AggregatorMore.

(** ** The script *)

Lemma last_ends {A} (l l' : list A) (x : A) :
  last l' = Some x -> last (l ++ l') = Some x.
Proof.
  intros H. by rewrite last_app, H.
Qed.

Lemma last_cons_ends {A} (a : A) (l : list A) (x : A) :
  last l = Some x -> last (a :: l) = Some x.
Proof. apply (last_ends [a]). Qed.

(** The last event of a run written as a concatenation. *)
Ltac last_event :=
  repeat first [ reflexivity | apply last_ends | apply last_cons_ends ].

(** Case analysis on the place of an event in a run. *)
Ltac split_elem H :=
  repeat first
    [ apply elem_of_app in H as [H|H]
    | apply elem_of_cons in H as [H|H]
    | apply list_elem_of_fmap in H as (? & ? & H)
    | apply elem_of_nil in H; destruct H ].

Section ScriptProperties.
Variable toupper_full : N -> list N.
Variable to_common_dtype : list (frame Cell) -> nat -> Cell -> Py.str -> Py.str.
Variable page_content : Py.str -> bool -> Z -> Py.str.
Variable read_html : Py.str -> option (list DataFrame).
Variable to_string : frame Cell -> Py.str.
Variable chat_completion : nat -> Py.str -> Py.str -> list Message -> Py.str.
Abbreviation clean := (clean_table_to_stock_schema toupper_full).
Abbreviation save :=
  (save_all_tables_single_sheet toupper_full to_common_dtype).
Abbreviation scrape := (scrape_all_tables page_content read_html).
Abbreviation ask := (summarize to_string chat_completion).
Abbreviation run :=
  (script toupper_full to_common_dtype page_content read_html to_string
     chat_completion).

(** X10. White space around the question has no influence on what is asked
    of the model: the messages built are the same, and so is the call made,
    whatever the model answers. *)
Theorem question_space_ignored (api_key : Py.str) (df : frame Cell)
    (ws1 ws2 q : Py.str) :
  Forall (fun c => Py.isspace c = true) ws1 ->
  Forall (fun c => Py.isspace c = true) ws2 ->
  messages_for to_string df (ws1 ++ q ++ ws2) = messages_for to_string df q
  /\ forall draw draw',
       (ask api_key df (ws1 ++ q ++ ws2) draw).2 = (ask api_key df q draw').2.
Proof.
  intros H1 H2.
  assert (E : messages_for to_string df (ws1 ++ q ++ ws2)
              = messages_for to_string df q).
  { unfold messages_for. by rewrite (strip_spaces ws1 ws2 q H1 H2). }
  split; [done|]. intros draw draw'. unfold summarize. cbn [snd]. by rewrite E.
Qed.

(** What a run does after the button is pressed, with a key. *)
Lemma script_clicked c k w draw :
  run_clicked w = true ->
  run (@Some Py.str (c :: k)) w draw
  = run (@Some Py.str (c :: k))
        {| user_question := user_question w; headless := headless w;
           wait_time := wait_time w; run_clicked := false |} draw
    ++ St (spinner (Py.lit "Scraping PSX tables..."))
       :: (Browser <$> (scrape URL (wait_time w) (headless w)).2)
    ++ (Fs <$> (save (scrape URL (wait_time w) (headless w)).1
                  default_out_dir default_excel_name).2)
    ++ match (save (scrape URL (wait_time w) (headless w)).1
                default_out_dir default_excel_name).1 with
       | None => [St (error no_tables)]
       | Some df =>
           if empty df then [St (error no_tables)]
           else
             [St (success (Py.lit "Scraped rows: " ++ str_of_nat (len df)
                           ++ Py.lit " | cols: "
                           ++ str_of_nat (length (columns df))));
              St (dataframe (head 30 df) true);
              St (spinner (Py.lit "Calling OpenAI..."))] ++
             (ask (c :: k) df (user_question w) draw).2 ++
             [St (subheader (Py.lit "Bot Answer"));
              St (write (ask (c :: k) df (user_question w) draw).1)]
       end.
Proof.
  intros Hclick. unfold script. rewrite Hclick. cbn [run_clicked].
  rewrite <- !app_assoc. do 2 f_equal. rewrite app_nil_l.
  unfold scrape_all_tables. cbn [fst snd].
  destruct (save _ default_out_dir default_excel_name) as [combined saved].
  reflexivity.
Qed.

Lemma script_idle_St key w draw e :
  run_clicked w = false -> e ∈ run key w draw -> exists c, e = St c.
Proof.
  intros Hclick. unfold script. rewrite Hclick.
  destruct key as [[|c k]|]; rewrite ?app_nil_r, elem_of_app, !elem_of_cons,
    !elem_of_nil; intros H; decompose [or] H; subst; try done; eauto.
Qed.

Lemma script_no_key_St key w draw e :
  key = None \/ key = Some [] -> e ∈ run key w draw -> exists c, e = St c.
Proof.
  unfold script. intros [-> | ->];
    rewrite elem_of_app, !elem_of_cons, !elem_of_nil;
    intros H; decompose [or] H; subst; try done; eauto.
Qed.

Lemma save_cases tables out_dir excel_name :
  (omap clean tables = [] /\ save tables out_dir excel_name = (None, []))
  \/ (omap clean tables <> [] /\
      save tables out_dir excel_name
      = (Some (concat to_common_dtype (omap clean tables)),
         [Mkdir out_dir true true;
          ToExcel out_dir excel_name AllData false
            (concat to_common_dtype (omap clean tables))])).
Proof.
  destruct (omap clean tables) as [|f l] eqn:E.
  - left. split; [done|]. by apply save_rejected.
  - right. split; [done|]. rewrite <- E. apply save_accepted. congruence.
Qed.

Lemma saved_dataset_columns tables out_dir excel_name df calls :
  save tables out_dir excel_name = (Some df, calls) -> columns df <> [].
Proof.
  destruct (save_cases tables out_dir excel_name) as [[_ ->]|[Hne ->]]; [done|].
  intros [= <- _].
  destruct (omap clean tables) as [|f l] eqn:E; [done|].
  assert (Hin : f ∈ omap clean tables) by (rewrite E; left).
  apply list_elem_of_omap in Hin as (t & _ & Ht).
  destruct (accepted_columns toupper_full t f Ht) as (H6 & Hnd & _).
  assert (Hle : length (columns f)
                <= length (columns (concat to_common_dtype (f :: l)))).
  { apply NoDup_length_le; [done|]. intros c Hc.
    apply union_columns_elem. exists f. split; [left|done]. }
  intros E0. rewrite E0 in Hle. simpl in Hle. lia.
Qed.

Lemma outside_events (key : option Py.str) (w : Widgets) (draw : nat)
    (e : Event) :
  e ∈ run key w draw ->
  (forall c, e <> St c) ->
  (exists k, key = Some k /\ k <> []) /\ run_clicked w = true.
Proof.
  intros He Hout.
  destruct (run_clicked w) eqn:Hclick.
  - split; [|done]. destruct key as [[|c k]|].
    + destruct (script_no_key_St (Some []) w draw e) as [s ->];
        [by right|done|].
      by destruct (Hout s).
    + by exists (c :: k).
    + destruct (script_no_key_St None w draw e) as [s ->]; [by left|done|].
      by destruct (Hout s).
  - destruct (script_idle_St key w draw e Hclick He) as [s ->].
    by destruct (Hout s).
Qed.

(** X11. Nothing outside the page happens unless a key is set and the
    button is pressed: a call to the browser, to the file system or to the
    model is made only in a run with a non-empty key and a click. *)
Theorem outside_calls_gated (key : option Py.str) (w : Widgets) (draw : nat)
    (e : Event) :
  e ∈ run key w draw ->
  (forall c, e <> St c) ->
  (exists k, key = Some k /\ k <> []) /\ run_clicked w = true.
Proof. apply outside_events. Qed.

(** X12. The model is asked about the saved dataset only, and only when it
    has rows: a call to the model in a run is made with the key of the
    environment and the model name gpt-4.1-mini, its messages are those of
    [messages_for] for the dataset just written to the workbook and the
    question entered, that dataset has at least one row, and the run ends
    by writing the answer. *)
Theorem model_asked_about_saved_dataset (key : option Py.str) (w : Widgets)
    (draw : nat) (k m : Py.str) (msgs : list Message) :
  Chat k m msgs ∈ run key w draw ->
  key = Some k /\ k <> [] /\ run_clicked w = true
  /\ m = Py.lit "gpt-4.1-mini"
  /\ last (run key w draw) = Some (St (write (chat_completion draw k m msgs)))
  /\ exists df,
       save (scrape URL (wait_time w) (headless w)).1
            default_out_dir default_excel_name
       = (Some df,
          [Mkdir default_out_dir true true;
           ToExcel default_out_dir default_excel_name AllData false df])
       /\ rows df <> []
       /\ msgs = messages_for to_string df (user_question w).
Proof.
  intros Hin.
  destruct (outside_events key w draw (Chat k m msgs) Hin)
    as [(k' & -> & Hk') Hclick]; [done|].
  destruct k' as [|c k']; [done|].
  revert Hin. rewrite (script_clicked c k' w draw Hclick).
  set (idle := run (Some (c :: k'))
                 {| user_question := user_question w; headless := headless w;
                    wait_time := wait_time w; run_clicked := false |} draw).
  destruct (save_cases (scrape URL (wait_time w) (headless w)).1
              default_out_dir default_excel_name) as [[_ Es]|[Hne Es]];
    rewrite Es; cbn [fst snd].
  - intros Hin. split_elem Hin; discriminate.
  - set (df := concat _ _).
    destruct (empty df) eqn:Hempty.
    + intros Hin. split_elem Hin; discriminate.
    + unfold summarize. cbn [fst snd].
      intros Hin. split_elem Hin; try discriminate.
      injection Hin as -> -> ->.
      split; [done|]. split; [done|]. split; [done|]. split; [done|].
      split.
      * last_event.
      * exists df. split; [done|]. split; [|done].
        intros Hrows. unfold empty in Hempty. by rewrite Hrows in Hempty.
Qed.

(** X13. A page without tables, or with tables that are all rejected,
    ends in the message that no table was detected: nothing is written to
    the file system and the model is not asked. *)
Theorem no_table_no_answer (k : Py.str) (w : Widgets) (draw : nat) :
  k <> [] ->
  run_clicked w = true ->
  match read_html (page_content URL (headless w) (wait_time w * 1000)) with
  | None => True
  | Some tables => forall t, t ∈ tables -> clean t = None
  end ->
  last (run (Some k) w draw) = Some (St (error no_tables))
  /\ forall e, e ∈ run (Some k) w draw ->
       (exists c, e = St c) \/ (exists c, e = Browser c).
Proof.
  intros Hk Hclick Hpage. destruct k as [|c k]; [done|].
  assert (Hrej : omap clean (scrape URL (wait_time w) (headless w)).1 = []).
  { unfold scrape_all_tables. cbn [fst].
    destruct (read_html _) as [tables|]; [|done].
    by apply omap_all_rejected. }
  rewrite (script_clicked c k w draw Hclick).
  rewrite (save_rejected toupper_full to_common_dtype _ _ _ Hrej).
  cbn [fst snd].
  split; [last_event|].
  intros e He.
  split_elem He; subst;
    first [ left; eexists; reflexivity | right; eexists; reflexivity ].
Qed.

(** X14. When every table of the page is accepted but none has a row, the
    workbook is written all the same, with a dataset without rows; the
    page then reports that no table was detected, and the model is not
    asked. *)
Theorem empty_dataset_saved_not_answered (k : Py.str) (w : Widgets)
    (draw : nat) (tables : list DataFrame) :
  k <> [] ->
  run_clicked w = true ->
  read_html (page_content URL (headless w) (wait_time w * 1000)) = Some tables ->
  tables <> [] ->
  (forall t, t ∈ tables -> exists out, clean t = Some out /\ rows out = []) ->
  exists df,
    rows df = []
    /\ Fs (ToExcel default_out_dir default_excel_name AllData false df)
       ∈ run (Some k) w draw
    /\ last (run (Some k) w draw) = Some (St (error no_tables))
    /\ forall key model msgs, Chat key model msgs ∉ run (Some k) w draw.
Proof.
  intros Hk Hclick Hpage Hne Hall. destruct k as [|c k]; [done|].
  assert (Etables : (scrape URL (wait_time w) (headless w)).1 = tables).
  { unfold scrape_all_tables. cbn [fst]. by rewrite Hpage. }
  assert (Hacc : omap clean tables <> []).
  { destruct tables as [|t tables']; [done|].
    destruct (Hall t) as (out & Hout & _); [left|]. simpl. by rewrite Hout. }
  set (df := concat to_common_dtype (omap clean tables)).
  assert (Hrows : rows df = []).
  { apply length_zero_iff_nil. fold (len df). unfold df.
    rewrite len_concat. apply sum_list_with_zero.
    intros f (t & Ht & Hf)%list_elem_of_omap.
    destruct (Hall t Ht) as (out & Hout & Hr).
    rewrite Hf in Hout. injection Hout as ->. unfold len. by rewrite Hr. }
  assert (Hempty : empty df = true).
  { unfold empty. by rewrite Hrows. }
  exists df. split; [done|].
  rewrite (script_clicked c k w draw Hclick), Etables.
  rewrite (save_accepted toupper_full to_common_dtype _ _ _ Hacc). fold df.
  cbn [fst snd].
  rewrite Hempty. split; [|split].
  - apply elem_of_app. right. apply elem_of_cons. right.
    apply elem_of_app. right. apply elem_of_app. left.
    apply list_elem_of_fmap. eexists. split; [done|]. right. left.
  - last_event.
  - intros key model msgs He. split_elem He; discriminate.
Qed.

(** X15. When the dataset saved has a row, the page shows its numbers of
    rows and of columns and at most its first 30 rows, the model is asked
    once about the dataset and the question, and the run ends by writing
    the answer of the model. *)
Theorem dataset_shown_and_answered (k : Py.str) (w : Widgets) (draw : nat)
    (df : frame Cell) (calls : list FsCall) :
  let model := Py.lit "gpt-4.1-mini" in
  let msgs := messages_for to_string df (user_question w) in
  k <> [] ->
  run_clicked w = true ->
  save (scrape URL (wait_time w) (headless w)).1
       default_out_dir default_excel_name = (Some df, calls) ->
  rows df <> [] ->
  St (success (Py.lit "Scraped rows: " ++ str_of_nat (len df)
               ++ Py.lit " | cols: " ++ str_of_nat (length (columns df))))
    ∈ run (Some k) w draw
  /\ St (dataframe (head 30 df) true) ∈ run (Some k) w draw
  /\ len (head 30 df) = len df `min` 30
  /\ List.filter is_chat (run (Some k) w draw) = [Chat k model msgs]
  /\ last (run (Some k) w draw)
     = Some (St (write (chat_completion draw k model msgs))).
Proof.
  intros model msgs Hk Hclick Hsave Hrows. destruct k as [|c k]; [done|].
  assert (Hempty : empty df = false).
  { unfold empty. rewrite bool_decide_eq_false_2 by done.
    rewrite bool_decide_eq_false_2; [done|].
    by apply (saved_dataset_columns _ _ _ _ _ Hsave). }
  assert (Hcalls : calls = [Mkdir default_out_dir true true;
                            ToExcel default_out_dir default_excel_name
                              AllData false df]).
  { destruct (save_cases (scrape URL (wait_time w) (headless w)).1
                default_out_dir default_excel_name) as [[_ Es]|[_ Es]];
      rewrite Es in Hsave; [done|]. by injection Hsave as <- <-. }
  rewrite (script_clicked c k w draw Hclick), Hsave, Hcalls. cbn [fst snd].
  rewrite Hempty. unfold summarize. cbn [fst snd]. fold msgs. fold model.
  split; [|split; [|split; [|split]]].
  - apply elem_of_app. right. apply elem_of_cons. right.
    apply elem_of_app. right. apply elem_of_app. right.
    apply elem_of_app. left. left.
  - apply elem_of_app. right. apply elem_of_cons. right.
    apply elem_of_app. right. apply elem_of_app. right.
    apply elem_of_app. left. right. left.
  - unfold len, head. cbn [rows]. rewrite length_take. lia.
  - reflexivity.
  - last_event.
Qed.

End ScriptProperties.

(** ** The further properties on the sample data *)

Lemma norm_ignores_surrounding_space_witness :
  _norm toupper_unicode (Text ([160; 32]%N ++ Py.lit "scrip" ++ [9; 10]%N))
  = _norm toupper_unicode (Text (Py.lit "scrip")).
Proof.
  apply (norm_ignores_surrounding_space toupper_unicode);
    repeat constructor.
Defined.

Lemma no_row_added_witness :
  len sample_repeated_cleaned <= len (flatten_header sample_repeated).
Proof.
  apply (no_row_added toupper_unicode sample_repeated).
  vm_compute. reflexivity.
Defined.

Lemma first_of_duplicated_columns_kept_witness :
  exists r',
    rows (drop_duplicated sample_duplicated) !! 0 = Some r'
    /\ r'.2 = T <$> ["AAA"; "10"]%string
    /\ cell_at (columns (drop_duplicated sample_duplicated)) (T "SCRIP") r'.2
       = T "AAA".
Proof.
  destruct (first_of_duplicated_columns_kept sample_duplicated 0
              (0%Z, T <$> ["AAA"; "10"; "ZZZ"]%string) eq_refl eq_refl)
    as (r' & Hr' & _ & _ & Hcell).
  exists r'. split; [exact Hr'|]. split.
  - vm_compute in Hr'. by injection Hr' as <-.
  - destruct (Hcell (T "SCRIP")) as [_ E]; [left|]. exact E.
Defined.

Lemma quote_values_untouched_witness :
  exists r0,
    r0 ∈ rows (candidate toupper_unicode sample_repeated)
    /\ r0.1 = 0%Z
    /\ cell_at (columns (candidate toupper_unicode sample_repeated))
               (T "VOLUME") r0.2
       = T "1000".
Proof.
  assert (H : clean_table_to_stock_schema toupper_unicode sample_repeated
              = Some sample_repeated_cleaned) by (vm_compute; reflexivity).
  destruct (quote_values_untouched toupper_unicode sample_repeated
              sample_repeated_cleaned
              (0%Z, T <$> ["AAA"; "10"; "10"; "11"; "9"; "10.5"; "+0.5";
                           "1000"]%string) H)
    as (r0 & Hr0 & Hi & Hcell); [left|].
  exists r0. split; [exact Hr0|]. split; [by rewrite <- Hi|].
  change (T "VOLUME") with (Text (Py.lit "VOLUME")).
  rewrite <- (Hcell (Py.lit "VOLUME")); [reflexivity| |discriminate].
  vm_compute. repeat constructor.
Defined.

Lemma clean_accepted_again_witness :
  clean_table_to_stock_schema toupper_unicode (FlatDF sample_repeated_cleaned)
  = Some sample_repeated_cleaned.
Proof.
  apply (clean_accepted_again toupper_unicode sample_repeated).
  - vm_compute. reflexivity.
  - intros r0 rest [= <- _]. vm_compute. lia.
Defined.

Lemma rejected_table_ignored_witness :
  save_all_tables_single_sheet toupper_unicode sample_common_dtype
    ([sample_quotes] ++ sample_menu :: [sample_six])
    default_out_dir default_excel_name
  = save_all_tables_single_sheet toupper_unicode sample_common_dtype
      ([sample_quotes] ++ [sample_six]) default_out_dir default_excel_name.
Proof.
  apply (rejected_table_ignored toupper_unicode sample_common_dtype).
  vm_compute. reflexivity.
Defined.

Lemma dataset_shape_witness :
  exists df,
    (save_all_tables_single_sheet toupper_unicode sample_common_dtype
       [sample_six; sample_quotes] default_out_dir default_excel_name).1
    = Some df
    /\ 6 <= length (columns df) <= 8 /\ NoDup (columns df).
Proof.
  destruct (save_all_tables_single_sheet toupper_unicode sample_common_dtype
              [sample_six; sample_quotes] default_out_dir default_excel_name)
    as [[df|] calls] eqn:E; [|vm_compute in E; discriminate].
  destruct (dataset_shape toupper_unicode sample_common_dtype _ _ _ df calls E)
    as (Hlen & Hnd & _).
  exists df. split; [reflexivity|]. split; [exact Hlen|exact Hnd].
Defined.

Lemma single_accepted_table_witness :
  (save_all_tables_single_sheet toupper_unicode sample_common_dtype
     [sample_menu; sample_repeated] default_out_dir default_excel_name).1
  = Some (reset_index sample_repeated_cleaned).
Proof.
  apply (single_accepted_table toupper_unicode sample_common_dtype).
  vm_compute. reflexivity.
Defined.

Lemma question_space_ignored_witness :
  messages_for sample_to_string sample_repeated_cleaned
    ([32; 9]%N ++ question_default ++ [10]%N)
  = messages_for sample_to_string sample_repeated_cleaned question_default
  /\ (summarize sample_to_string sample_answer sample_key
        sample_repeated_cleaned ([32; 9]%N ++ question_default ++ [10]%N) 0).2
     = (summarize sample_to_string sample_answer sample_key
          sample_repeated_cleaned question_default 1).2.
Proof.
  destruct (question_space_ignored sample_to_string sample_answer sample_key
              sample_repeated_cleaned [32; 9]%N [10]%N question_default)
    as [Hmessages Hcalls]; [repeat constructor..|].
  split; [exact Hmessages|apply Hcalls].
Defined.

Lemma outside_calls_gated_witness :
  (exists k, Some sample_key = Some k /\ k <> [])
  /\ run_clicked sample_widgets = true.
Proof.
  apply (outside_calls_gated toupper_unicode sample_common_dtype sample_page
           (sample_tables None) sample_to_string sample_answer
           (Some sample_key) sample_widgets 0 (Browser Content)).
  - apply list_elem_of_In. vm_compute. tauto.
  - discriminate.
Defined.

Lemma model_asked_about_saved_dataset_witness :
  exists df,
    save_all_tables_single_sheet toupper_unicode sample_common_dtype
      [sample_menu; sample_quotes] default_out_dir default_excel_name
    = (Some df,
       [Mkdir default_out_dir true true;
        ToExcel default_out_dir default_excel_name AllData false df])
    /\ rows df <> [].
Proof.
  destruct (model_asked_about_saved_dataset toupper_unicode
              sample_common_dtype sample_page
              (sample_tables (Some [sample_menu; sample_quotes]))
              sample_to_string sample_answer (Some sample_key) sample_widgets
              0 sample_key (Py.lit "gpt-4.1-mini")
              (messages_for sample_to_string
                 (reset_index (Frame
                    (T <$> ["SCRIP"; "LDCP"; "OPEN"; "HIGH"; "LOW"; "CURRENT";
                            "CHANGE"; "VOLUME"]%string)
                    [(0%Z, T <$> ["AAA"; "10"; "10"; "11"; "9"; "10.5";
                                  "+0.5"; "1000"]%string)]))
                 question_default))
    as (_ & _ & _ & _ & _ & df & Hsave & Hrows & _).
  - apply list_elem_of_In. vm_compute. tauto.
  - exists df. split; [exact Hsave|exact Hrows].
Defined.

Lemma no_table_no_answer_witness :
  last (script toupper_unicode sample_common_dtype sample_page
          (sample_tables None) sample_to_string sample_answer
          (Some sample_key) sample_widgets 0)
  = Some (St (error no_tables)).
Proof.
  apply (no_table_no_answer toupper_unicode sample_common_dtype sample_page
           (sample_tables None) sample_to_string sample_answer sample_key
           sample_widgets 0);
    [discriminate|reflexivity|exact I].
Defined.

Lemma empty_dataset_saved_not_answered_witness :
  exists df,
    rows df = []
    /\ Fs (ToExcel default_out_dir default_excel_name AllData false df)
       ∈ script toupper_unicode sample_common_dtype sample_page
           (sample_tables (Some [sample_empty])) sample_to_string
           sample_answer (Some sample_key) sample_widgets 0.
Proof.
  destruct (empty_dataset_saved_not_answered toupper_unicode
              sample_common_dtype sample_page
              (sample_tables (Some [sample_empty])) sample_to_string
              sample_answer sample_key sample_widgets 0 [sample_empty])
    as (df & Hrows & Hfs & _).
  - discriminate.
  - reflexivity.
  - reflexivity.
  - discriminate.
  - intros t Ht. apply list_elem_of_singleton in Ht. subst t.
    eexists. split; [vm_compute; reflexivity|reflexivity].
  - exists df. split; [exact Hrows|exact Hfs].
Defined.

Lemma dataset_shown_and_answered_witness :
  last (script toupper_unicode sample_common_dtype sample_page
          (sample_tables (Some [sample_menu; sample_quotes])) sample_to_string
          sample_answer (Some sample_key) sample_widgets 0)
  = Some (St (write (Py.lit "- AAA has the highest volume"))).
Proof.
  destruct (save_all_tables_single_sheet toupper_unicode sample_common_dtype
              (scrape_all_tables sample_page
                 (sample_tables (Some [sample_menu; sample_quotes]))
                 URL (wait_time sample_widgets) (headless sample_widgets)).1
              default_out_dir default_excel_name)
    as [[df|] calls] eqn:E; [|vm_compute in E; discriminate].
  destruct (dataset_shown_and_answered toupper_unicode sample_common_dtype
              sample_page (sample_tables (Some [sample_menu; sample_quotes]))
              sample_to_string sample_answer sample_key sample_widgets 0
              df calls) as (_ & _ & _ & _ & Hlast).
  - discriminate.
  - reflexivity.
  - exact E.
  - vm_compute in E. injection E as <- _. discriminate.
  - exact Hlast.
Defined.
